(** * tomas_per: Trading212 positions to InfluxDB points

    A shallow embedding of [src/tomas_per] (schema.py, clients/t212.py,
    clients/influxdb.py, main.py) and the properties of its
    position-normalisation and point-construction pipeline.

    Python floats are IEEE binary64 numbers: they are Rocq's primitive floats.
    Python dicts are finite maps ([gmap]).  A Python str is represented by
    the bytes of its UTF-8 encoding. *)

From Stdlib Require Import ZArith NArith Ascii String.
From Stdlib Require Import Floats.PrimFloat Floats.FloatOps Floats.SpecFloat.
From stdpp Require Import gmap strings list.

Set Warnings "-register-all,-inexact-float".
Local Open Scope string_scope.

(** ** Python builtins used by the code *)

Module Py.

(** *** Text

    A str is a sequence of Unicode code points (any of 0..0x10FFFF, lone
    surrogates included).  It is represented by its UTF-8 encoding, each code
    point taking one to four bytes. *)

(** The encoding of one code point. *)
Definition utf8 (cp : N) : string :=
  let byte (n : N) := ascii_of_N n in
  let continuation (n : N) := byte (128 + n mod 64)%N in
  if (cp <? 128)%N then String (byte cp) ""
  else if (cp <? 2048)%N then
    String (byte (192 + cp / 64)%N) (String (continuation cp) "")
  else if (cp <? 65536)%N then
    String (byte (224 + cp / 4096)%N)
      (String (continuation (cp / 64)%N) (String (continuation cp) ""))
  else
    String (byte (240 + cp / 262144)%N)
      (String (continuation (cp / 4096)%N)
         (String (continuation (cp / 64)%N) (String (continuation cp) ""))).

(** [''.join(parts)]. *)
Definition join (parts : list string) : string :=
  foldr String.append "" parts.

(** The representation of the str made of the given code points. *)
Definition encode (code_points : list N) : string :=
  join (utf8 <$> code_points).

(** How many bytes follow a leading byte in the encoding of its character. *)
Definition continuation_bytes (lead : ascii) : nat :=
  let n := N_of_ascii lead in
  if (n <? 192)%N then 0
  else if (n <? 224)%N then 1
  else if (n <? 240)%N then 2
  else if (n <? 248)%N then 3
  else 0.

(** The characters of a str, each as its encoding.  (Bytes that are the
    encoding of no str are cut the same way; a sequence that ends too early
    is one piece.) *)
Fixpoint chars_of (s : string) : list string :=
  match s with
  | EmptyString => []
  | String b0 r0 =>
      match continuation_bytes b0, r0 with
      | 0, _ => String b0 "" :: chars_of r0
      | 1, String b1 r1 => String b0 (String b1 "") :: chars_of r1
      | 2, String b1 (String b2 r2) =>
          String b0 (String b1 (String b2 "")) :: chars_of r2
      | 3, String b1 (String b2 (String b3 r3)) =>
          String b0 (String b1 (String b2 (String b3 ""))) :: chars_of r3
      | _, _ => [s]
      end
  end.

(** [c.upper()] for one ASCII character: a..z go to A..Z, everything else
    stays. *)
Definition ascii_upper (c : ascii) : ascii :=
  let n := nat_of_ascii c in
  if (97 <=? n)%nat && (n <=? 122)%nat then ascii_of_nat (n - 32) else c.

(** [c.upper()] for the characters outside ASCII that it changes: the code
    point and the code points of its full uppercase mapping, which can be
    several ([chr(223).upper()] is "SS").  This is the Unicode Character
    Database (UnicodeData.txt and SpecialCasing.txt, version 14.0.0) as
    CPython 3.11 carries it; every code point that is not listed, and is not
    one of a..z, is its own uppercase. *)
Definition to_upper_full : list (N * list N) :=
  [
    (181, [924]); (223, [83; 83]); (224, [192]); (225, [193]); (226, [194]);
    (227, [195]); (228, [196]); (229, [197]); (230, [198]); (231, [199]);
    (232, [200]); (233, [201]); (234, [202]); (235, [203]); (236, [204]);
    (237, [205]); (238, [206]); (239, [207]); (240, [208]); (241, [209]);
    (242, [210]); (243, [211]); (244, [212]); (245, [213]); (246, [214]);
    (248, [216]); (249, [217]); (250, [218]); (251, [219]); (252, [220]);
    (253, [221]); (254, [222]); (255, [376]); (257, [256]); (259, [258]);
    (261, [260]); (263, [262]); (265, [264]); (267, [266]); (269, [268]);
    (271, [270]); (273, [272]); (275, [274]); (277, [276]); (279, [278]);
    (281, [280]); (283, [282]); (285, [284]); (287, [286]); (289, [288]);
    (291, [290]); (293, [292]); (295, [294]); (297, [296]); (299, [298]);
    (301, [300]); (303, [302]); (305, [73]); (307, [306]); (309, [308]);
    (311, [310]); (314, [313]); (316, [315]); (318, [317]); (320, [319]);
    (322, [321]); (324, [323]); (326, [325]); (328, [327]); (329, [700; 78]);
    (331, [330]); (333, [332]); (335, [334]); (337, [336]); (339, [338]);
    (341, [340]); (343, [342]); (345, [344]); (347, [346]); (349, [348]);
    (351, [350]); (353, [352]); (355, [354]); (357, [356]); (359, [358]);
    (361, [360]); (363, [362]); (365, [364]); (367, [366]); (369, [368]);
    (371, [370]); (373, [372]); (375, [374]); (378, [377]); (380, [379]);
    (382, [381]); (383, [83]); (384, [579]); (387, [386]); (389, [388]);
    (392, [391]); (396, [395]); (402, [401]); (405, [502]); (409, [408]);
    (410, [573]); (414, [544]); (417, [416]); (419, [418]); (421, [420]);
    (424, [423]); (429, [428]); (432, [431]); (436, [435]); (438, [437]);
    (441, [440]); (445, [444]); (447, [503]); (453, [452]); (454, [452]);
    (456, [455]); (457, [455]); (459, [458]); (460, [458]); (462, [461]);
    (464, [463]); (466, [465]); (468, [467]); (470, [469]); (472, [471]);
    (474, [473]); (476, [475]); (477, [398]); (479, [478]); (481, [480]);
    (483, [482]); (485, [484]); (487, [486]); (489, [488]); (491, [490]);
    (493, [492]); (495, [494]); (496, [74; 780]); (498, [497]); (499, [497]);
    (501, [500]); (505, [504]); (507, [506]); (509, [508]); (511, [510]);
    (513, [512]); (515, [514]); (517, [516]); (519, [518]); (521, [520]);
    (523, [522]); (525, [524]); (527, [526]); (529, [528]); (531, [530]);
    (533, [532]); (535, [534]); (537, [536]); (539, [538]); (541, [540]);
    (543, [542]); (547, [546]); (549, [548]); (551, [550]); (553, [552]);
    (555, [554]); (557, [556]); (559, [558]); (561, [560]); (563, [562]);
    (572, [571]); (575, [11390]); (576, [11391]); (578, [577]); (583, [582]);
    (585, [584]); (587, [586]); (589, [588]); (591, [590]); (592, [11375]);
    (593, [11373]); (594, [11376]); (595, [385]); (596, [390]); (598, [393]);
    (599, [394]); (601, [399]); (603, [400]); (604, [42923]); (608, [403]);
    (609, [42924]); (611, [404]); (613, [42893]); (614, [42922]);
    (616, [407]); (617, [406]); (618, [42926]); (619, [11362]);
    (620, [42925]); (623, [412]); (625, [11374]); (626, [413]); (629, [415]);
    (637, [11364]); (640, [422]); (642, [42949]); (643, [425]);
    (647, [42929]); (648, [430]); (649, [580]); (650, [433]); (651, [434]);
    (652, [581]); (658, [439]); (669, [42930]); (670, [42928]); (837, [921]);
    (881, [880]); (883, [882]); (887, [886]); (891, [1021]); (892, [1022]);
    (893, [1023]); (912, [921; 776; 769]); (940, [902]); (941, [904]);
    (942, [905]); (943, [906]); (944, [933; 776; 769]); (945, [913]);
    (946, [914]); (947, [915]); (948, [916]); (949, [917]); (950, [918]);
    (951, [919]); (952, [920]); (953, [921]); (954, [922]); (955, [923]);
    (956, [924]); (957, [925]); (958, [926]); (959, [927]); (960, [928]);
    (961, [929]); (962, [931]); (963, [931]); (964, [932]); (965, [933]);
    (966, [934]); (967, [935]); (968, [936]); (969, [937]); (970, [938]);
    (971, [939]); (972, [908]); (973, [910]); (974, [911]); (976, [914]);
    (977, [920]); (981, [934]); (982, [928]); (983, [975]); (985, [984]);
    (987, [986]); (989, [988]); (991, [990]); (993, [992]); (995, [994]);
    (997, [996]); (999, [998]); (1001, [1000]); (1003, [1002]);
    (1005, [1004]); (1007, [1006]); (1008, [922]); (1009, [929]);
    (1010, [1017]); (1011, [895]); (1013, [917]); (1016, [1015]);
    (1019, [1018]); (1072, [1040]); (1073, [1041]); (1074, [1042]);
    (1075, [1043]); (1076, [1044]); (1077, [1045]); (1078, [1046]);
    (1079, [1047]); (1080, [1048]); (1081, [1049]); (1082, [1050]);
    (1083, [1051]); (1084, [1052]); (1085, [1053]); (1086, [1054]);
    (1087, [1055]); (1088, [1056]); (1089, [1057]); (1090, [1058]);
    (1091, [1059]); (1092, [1060]); (1093, [1061]); (1094, [1062]);
    (1095, [1063]); (1096, [1064]); (1097, [1065]); (1098, [1066]);
    (1099, [1067]); (1100, [1068]); (1101, [1069]); (1102, [1070]);
    (1103, [1071]); (1104, [1024]); (1105, [1025]); (1106, [1026]);
    (1107, [1027]); (1108, [1028]); (1109, [1029]); (1110, [1030]);
    (1111, [1031]); (1112, [1032]); (1113, [1033]); (1114, [1034]);
    (1115, [1035]); (1116, [1036]); (1117, [1037]); (1118, [1038]);
    (1119, [1039]); (1121, [1120]); (1123, [1122]); (1125, [1124]);
    (1127, [1126]); (1129, [1128]); (1131, [1130]); (1133, [1132]);
    (1135, [1134]); (1137, [1136]); (1139, [1138]); (1141, [1140]);
    (1143, [1142]); (1145, [1144]); (1147, [1146]); (1149, [1148]);
    (1151, [1150]); (1153, [1152]); (1163, [1162]); (1165, [1164]);
    (1167, [1166]); (1169, [1168]); (1171, [1170]); (1173, [1172]);
    (1175, [1174]); (1177, [1176]); (1179, [1178]); (1181, [1180]);
    (1183, [1182]); (1185, [1184]); (1187, [1186]); (1189, [1188]);
    (1191, [1190]); (1193, [1192]); (1195, [1194]); (1197, [1196]);
    (1199, [1198]); (1201, [1200]); (1203, [1202]); (1205, [1204]);
    (1207, [1206]); (1209, [1208]); (1211, [1210]); (1213, [1212]);
    (1215, [1214]); (1218, [1217]); (1220, [1219]); (1222, [1221]);
    (1224, [1223]); (1226, [1225]); (1228, [1227]); (1230, [1229]);
    (1231, [1216]); (1233, [1232]); (1235, [1234]); (1237, [1236]);
    (1239, [1238]); (1241, [1240]); (1243, [1242]); (1245, [1244]);
    (1247, [1246]); (1249, [1248]); (1251, [1250]); (1253, [1252]);
    (1255, [1254]); (1257, [1256]); (1259, [1258]); (1261, [1260]);
    (1263, [1262]); (1265, [1264]); (1267, [1266]); (1269, [1268]);
    (1271, [1270]); (1273, [1272]); (1275, [1274]); (1277, [1276]);
    (1279, [1278]); (1281, [1280]); (1283, [1282]); (1285, [1284]);
    (1287, [1286]); (1289, [1288]); (1291, [1290]); (1293, [1292]);
    (1295, [1294]); (1297, [1296]); (1299, [1298]); (1301, [1300]);
    (1303, [1302]); (1305, [1304]); (1307, [1306]); (1309, [1308]);
    (1311, [1310]); (1313, [1312]); (1315, [1314]); (1317, [1316]);
    (1319, [1318]); (1321, [1320]); (1323, [1322]); (1325, [1324]);
    (1327, [1326]); (1377, [1329]); (1378, [1330]); (1379, [1331]);
    (1380, [1332]); (1381, [1333]); (1382, [1334]); (1383, [1335]);
    (1384, [1336]); (1385, [1337]); (1386, [1338]); (1387, [1339]);
    (1388, [1340]); (1389, [1341]); (1390, [1342]); (1391, [1343]);
    (1392, [1344]); (1393, [1345]); (1394, [1346]); (1395, [1347]);
    (1396, [1348]); (1397, [1349]); (1398, [1350]); (1399, [1351]);
    (1400, [1352]); (1401, [1353]); (1402, [1354]); (1403, [1355]);
    (1404, [1356]); (1405, [1357]); (1406, [1358]); (1407, [1359]);
    (1408, [1360]); (1409, [1361]); (1410, [1362]); (1411, [1363]);
    (1412, [1364]); (1413, [1365]); (1414, [1366]); (1415, [1333; 1362]);
    (4304, [7312]); (4305, [7313]); (4306, [7314]); (4307, [7315]);
    (4308, [7316]); (4309, [7317]); (4310, [7318]); (4311, [7319]);
    (4312, [7320]); (4313, [7321]); (4314, [7322]); (4315, [7323]);
    (4316, [7324]); (4317, [7325]); (4318, [7326]); (4319, [7327]);
    (4320, [7328]); (4321, [7329]); (4322, [7330]); (4323, [7331]);
    (4324, [7332]); (4325, [7333]); (4326, [7334]); (4327, [7335]);
    (4328, [7336]); (4329, [7337]); (4330, [7338]); (4331, [7339]);
    (4332, [7340]); (4333, [7341]); (4334, [7342]); (4335, [7343]);
    (4336, [7344]); (4337, [7345]); (4338, [7346]); (4339, [7347]);
    (4340, [7348]); (4341, [7349]); (4342, [7350]); (4343, [7351]);
    (4344, [7352]); (4345, [7353]); (4346, [7354]); (4349, [7357]);
    (4350, [7358]); (4351, [7359]); (5112, [5104]); (5113, [5105]);
    (5114, [5106]); (5115, [5107]); (5116, [5108]); (5117, [5109]);
    (7296, [1042]); (7297, [1044]); (7298, [1054]); (7299, [1057]);
    (7300, [1058]); (7301, [1058]); (7302, [1066]); (7303, [1122]);
    (7304, [42570]); (7545, [42877]); (7549, [11363]); (7566, [42950]);
    (7681, [7680]); (7683, [7682]); (7685, [7684]); (7687, [7686]);
    (7689, [7688]); (7691, [7690]); (7693, [7692]); (7695, [7694]);
    (7697, [7696]); (7699, [7698]); (7701, [7700]); (7703, [7702]);
    (7705, [7704]); (7707, [7706]); (7709, [7708]); (7711, [7710]);
    (7713, [7712]); (7715, [7714]); (7717, [7716]); (7719, [7718]);
    (7721, [7720]); (7723, [7722]); (7725, [7724]); (7727, [7726]);
    (7729, [7728]); (7731, [7730]); (7733, [7732]); (7735, [7734]);
    (7737, [7736]); (7739, [7738]); (7741, [7740]); (7743, [7742]);
    (7745, [7744]); (7747, [7746]); (7749, [7748]); (7751, [7750]);
    (7753, [7752]); (7755, [7754]); (7757, [7756]); (7759, [7758]);
    (7761, [7760]); (7763, [7762]); (7765, [7764]); (7767, [7766]);
    (7769, [7768]); (7771, [7770]); (7773, [7772]); (7775, [7774]);
    (7777, [7776]); (7779, [7778]); (7781, [7780]); (7783, [7782]);
    (7785, [7784]); (7787, [7786]); (7789, [7788]); (7791, [7790]);
    (7793, [7792]); (7795, [7794]); (7797, [7796]); (7799, [7798]);
    (7801, [7800]); (7803, [7802]); (7805, [7804]); (7807, [7806]);
    (7809, [7808]); (7811, [7810]); (7813, [7812]); (7815, [7814]);
    (7817, [7816]); (7819, [7818]); (7821, [7820]); (7823, [7822]);
    (7825, [7824]); (7827, [7826]); (7829, [7828]); (7830, [72; 817]);
    (7831, [84; 776]); (7832, [87; 778]); (7833, [89; 778]);
    (7834, [65; 702]); (7835, [7776]); (7841, [7840]); (7843, [7842]);
    (7845, [7844]); (7847, [7846]); (7849, [7848]); (7851, [7850]);
    (7853, [7852]); (7855, [7854]); (7857, [7856]); (7859, [7858]);
    (7861, [7860]); (7863, [7862]); (7865, [7864]); (7867, [7866]);
    (7869, [7868]); (7871, [7870]); (7873, [7872]); (7875, [7874]);
    (7877, [7876]); (7879, [7878]); (7881, [7880]); (7883, [7882]);
    (7885, [7884]); (7887, [7886]); (7889, [7888]); (7891, [7890]);
    (7893, [7892]); (7895, [7894]); (7897, [7896]); (7899, [7898]);
    (7901, [7900]); (7903, [7902]); (7905, [7904]); (7907, [7906]);
    (7909, [7908]); (7911, [7910]); (7913, [7912]); (7915, [7914]);
    (7917, [7916]); (7919, [7918]); (7921, [7920]); (7923, [7922]);
    (7925, [7924]); (7927, [7926]); (7929, [7928]); (7931, [7930]);
    (7933, [7932]); (7935, [7934]); (7936, [7944]); (7937, [7945]);
    (7938, [7946]); (7939, [7947]); (7940, [7948]); (7941, [7949]);
    (7942, [7950]); (7943, [7951]); (7952, [7960]); (7953, [7961]);
    (7954, [7962]); (7955, [7963]); (7956, [7964]); (7957, [7965]);
    (7968, [7976]); (7969, [7977]); (7970, [7978]); (7971, [7979]);
    (7972, [7980]); (7973, [7981]); (7974, [7982]); (7975, [7983]);
    (7984, [7992]); (7985, [7993]); (7986, [7994]); (7987, [7995]);
    (7988, [7996]); (7989, [7997]); (7990, [7998]); (7991, [7999]);
    (8000, [8008]); (8001, [8009]); (8002, [8010]); (8003, [8011]);
    (8004, [8012]); (8005, [8013]); (8016, [933; 787]); (8017, [8025]);
    (8018, [933; 787; 768]); (8019, [8027]); (8020, [933; 787; 769]);
    (8021, [8029]); (8022, [933; 787; 834]); (8023, [8031]); (8032, [8040]);
    (8033, [8041]); (8034, [8042]); (8035, [8043]); (8036, [8044]);
    (8037, [8045]); (8038, [8046]); (8039, [8047]); (8048, [8122]);
    (8049, [8123]); (8050, [8136]); (8051, [8137]); (8052, [8138]);
    (8053, [8139]); (8054, [8154]); (8055, [8155]); (8056, [8184]);
    (8057, [8185]); (8058, [8170]); (8059, [8171]); (8060, [8186]);
    (8061, [8187]); (8064, [7944; 921]); (8065, [7945; 921]);
    (8066, [7946; 921]); (8067, [7947; 921]); (8068, [7948; 921]);
    (8069, [7949; 921]); (8070, [7950; 921]); (8071, [7951; 921]);
    (8072, [7944; 921]); (8073, [7945; 921]); (8074, [7946; 921]);
    (8075, [7947; 921]); (8076, [7948; 921]); (8077, [7949; 921]);
    (8078, [7950; 921]); (8079, [7951; 921]); (8080, [7976; 921]);
    (8081, [7977; 921]); (8082, [7978; 921]); (8083, [7979; 921]);
    (8084, [7980; 921]); (8085, [7981; 921]); (8086, [7982; 921]);
    (8087, [7983; 921]); (8088, [7976; 921]); (8089, [7977; 921]);
    (8090, [7978; 921]); (8091, [7979; 921]); (8092, [7980; 921]);
    (8093, [7981; 921]); (8094, [7982; 921]); (8095, [7983; 921]);
    (8096, [8040; 921]); (8097, [8041; 921]); (8098, [8042; 921]);
    (8099, [8043; 921]); (8100, [8044; 921]); (8101, [8045; 921]);
    (8102, [8046; 921]); (8103, [8047; 921]); (8104, [8040; 921]);
    (8105, [8041; 921]); (8106, [8042; 921]); (8107, [8043; 921]);
    (8108, [8044; 921]); (8109, [8045; 921]); (8110, [8046; 921]);
    (8111, [8047; 921]); (8112, [8120]); (8113, [8121]); (8114, [8122; 921]);
    (8115, [913; 921]); (8116, [902; 921]); (8118, [913; 834]);
    (8119, [913; 834; 921]); (8124, [913; 921]); (8126, [921]);
    (8130, [8138; 921]); (8131, [919; 921]); (8132, [905; 921]);
    (8134, [919; 834]); (8135, [919; 834; 921]); (8140, [919; 921]);
    (8144, [8152]); (8145, [8153]); (8146, [921; 776; 768]);
    (8147, [921; 776; 769]); (8150, [921; 834]); (8151, [921; 776; 834]);
    (8160, [8168]); (8161, [8169]); (8162, [933; 776; 768]);
    (8163, [933; 776; 769]); (8164, [929; 787]); (8165, [8172]);
    (8166, [933; 834]); (8167, [933; 776; 834]); (8178, [8186; 921]);
    (8179, [937; 921]); (8180, [911; 921]); (8182, [937; 834]);
    (8183, [937; 834; 921]); (8188, [937; 921]); (8526, [8498]);
    (8560, [8544]); (8561, [8545]); (8562, [8546]); (8563, [8547]);
    (8564, [8548]); (8565, [8549]); (8566, [8550]); (8567, [8551]);
    (8568, [8552]); (8569, [8553]); (8570, [8554]); (8571, [8555]);
    (8572, [8556]); (8573, [8557]); (8574, [8558]); (8575, [8559]);
    (8580, [8579]); (9424, [9398]); (9425, [9399]); (9426, [9400]);
    (9427, [9401]); (9428, [9402]); (9429, [9403]); (9430, [9404]);
    (9431, [9405]); (9432, [9406]); (9433, [9407]); (9434, [9408]);
    (9435, [9409]); (9436, [9410]); (9437, [9411]); (9438, [9412]);
    (9439, [9413]); (9440, [9414]); (9441, [9415]); (9442, [9416]);
    (9443, [9417]); (9444, [9418]); (9445, [9419]); (9446, [9420]);
    (9447, [9421]); (9448, [9422]); (9449, [9423]); (11312, [11264]);
    (11313, [11265]); (11314, [11266]); (11315, [11267]); (11316, [11268]);
    (11317, [11269]); (11318, [11270]); (11319, [11271]); (11320, [11272]);
    (11321, [11273]); (11322, [11274]); (11323, [11275]); (11324, [11276]);
    (11325, [11277]); (11326, [11278]); (11327, [11279]); (11328, [11280]);
    (11329, [11281]); (11330, [11282]); (11331, [11283]); (11332, [11284]);
    (11333, [11285]); (11334, [11286]); (11335, [11287]); (11336, [11288]);
    (11337, [11289]); (11338, [11290]); (11339, [11291]); (11340, [11292]);
    (11341, [11293]); (11342, [11294]); (11343, [11295]); (11344, [11296]);
    (11345, [11297]); (11346, [11298]); (11347, [11299]); (11348, [11300]);
    (11349, [11301]); (11350, [11302]); (11351, [11303]); (11352, [11304]);
    (11353, [11305]); (11354, [11306]); (11355, [11307]); (11356, [11308]);
    (11357, [11309]); (11358, [11310]); (11359, [11311]); (11361, [11360]);
    (11365, [570]); (11366, [574]); (11368, [11367]); (11370, [11369]);
    (11372, [11371]); (11379, [11378]); (11382, [11381]); (11393, [11392]);
    (11395, [11394]); (11397, [11396]); (11399, [11398]); (11401, [11400]);
    (11403, [11402]); (11405, [11404]); (11407, [11406]); (11409, [11408]);
    (11411, [11410]); (11413, [11412]); (11415, [11414]); (11417, [11416]);
    (11419, [11418]); (11421, [11420]); (11423, [11422]); (11425, [11424]);
    (11427, [11426]); (11429, [11428]); (11431, [11430]); (11433, [11432]);
    (11435, [11434]); (11437, [11436]); (11439, [11438]); (11441, [11440]);
    (11443, [11442]); (11445, [11444]); (11447, [11446]); (11449, [11448]);
    (11451, [11450]); (11453, [11452]); (11455, [11454]); (11457, [11456]);
    (11459, [11458]); (11461, [11460]); (11463, [11462]); (11465, [11464]);
    (11467, [11466]); (11469, [11468]); (11471, [11470]); (11473, [11472]);
    (11475, [11474]); (11477, [11476]); (11479, [11478]); (11481, [11480]);
    (11483, [11482]); (11485, [11484]); (11487, [11486]); (11489, [11488]);
    (11491, [11490]); (11500, [11499]); (11502, [11501]); (11507, [11506]);
    (11520, [4256]); (11521, [4257]); (11522, [4258]); (11523, [4259]);
    (11524, [4260]); (11525, [4261]); (11526, [4262]); (11527, [4263]);
    (11528, [4264]); (11529, [4265]); (11530, [4266]); (11531, [4267]);
    (11532, [4268]); (11533, [4269]); (11534, [4270]); (11535, [4271]);
    (11536, [4272]); (11537, [4273]); (11538, [4274]); (11539, [4275]);
    (11540, [4276]); (11541, [4277]); (11542, [4278]); (11543, [4279]);
    (11544, [4280]); (11545, [4281]); (11546, [4282]); (11547, [4283]);
    (11548, [4284]); (11549, [4285]); (11550, [4286]); (11551, [4287]);
    (11552, [4288]); (11553, [4289]); (11554, [4290]); (11555, [4291]);
    (11556, [4292]); (11557, [4293]); (11559, [4295]); (11565, [4301]);
    (42561, [42560]); (42563, [42562]); (42565, [42564]); (42567, [42566]);
    (42569, [42568]); (42571, [42570]); (42573, [42572]); (42575, [42574]);
    (42577, [42576]); (42579, [42578]); (42581, [42580]); (42583, [42582]);
    (42585, [42584]); (42587, [42586]); (42589, [42588]); (42591, [42590]);
    (42593, [42592]); (42595, [42594]); (42597, [42596]); (42599, [42598]);
    (42601, [42600]); (42603, [42602]); (42605, [42604]); (42625, [42624]);
    (42627, [42626]); (42629, [42628]); (42631, [42630]); (42633, [42632]);
    (42635, [42634]); (42637, [42636]); (42639, [42638]); (42641, [42640]);
    (42643, [42642]); (42645, [42644]); (42647, [42646]); (42649, [42648]);
    (42651, [42650]); (42787, [42786]); (42789, [42788]); (42791, [42790]);
    (42793, [42792]); (42795, [42794]); (42797, [42796]); (42799, [42798]);
    (42803, [42802]); (42805, [42804]); (42807, [42806]); (42809, [42808]);
    (42811, [42810]); (42813, [42812]); (42815, [42814]); (42817, [42816]);
    (42819, [42818]); (42821, [42820]); (42823, [42822]); (42825, [42824]);
    (42827, [42826]); (42829, [42828]); (42831, [42830]); (42833, [42832]);
    (42835, [42834]); (42837, [42836]); (42839, [42838]); (42841, [42840]);
    (42843, [42842]); (42845, [42844]); (42847, [42846]); (42849, [42848]);
    (42851, [42850]); (42853, [42852]); (42855, [42854]); (42857, [42856]);
    (42859, [42858]); (42861, [42860]); (42863, [42862]); (42874, [42873]);
    (42876, [42875]); (42879, [42878]); (42881, [42880]); (42883, [42882]);
    (42885, [42884]); (42887, [42886]); (42892, [42891]); (42897, [42896]);
    (42899, [42898]); (42900, [42948]); (42903, [42902]); (42905, [42904]);
    (42907, [42906]); (42909, [42908]); (42911, [42910]); (42913, [42912]);
    (42915, [42914]); (42917, [42916]); (42919, [42918]); (42921, [42920]);
    (42933, [42932]); (42935, [42934]); (42937, [42936]); (42939, [42938]);
    (42941, [42940]); (42943, [42942]); (42945, [42944]); (42947, [42946]);
    (42952, [42951]); (42954, [42953]); (42961, [42960]); (42967, [42966]);
    (42969, [42968]); (42998, [42997]); (43859, [42931]); (43888, [5024]);
    (43889, [5025]); (43890, [5026]); (43891, [5027]); (43892, [5028]);
    (43893, [5029]); (43894, [5030]); (43895, [5031]); (43896, [5032]);
    (43897, [5033]); (43898, [5034]); (43899, [5035]); (43900, [5036]);
    (43901, [5037]); (43902, [5038]); (43903, [5039]); (43904, [5040]);
    (43905, [5041]); (43906, [5042]); (43907, [5043]); (43908, [5044]);
    (43909, [5045]); (43910, [5046]); (43911, [5047]); (43912, [5048]);
    (43913, [5049]); (43914, [5050]); (43915, [5051]); (43916, [5052]);
    (43917, [5053]); (43918, [5054]); (43919, [5055]); (43920, [5056]);
    (43921, [5057]); (43922, [5058]); (43923, [5059]); (43924, [5060]);
    (43925, [5061]); (43926, [5062]); (43927, [5063]); (43928, [5064]);
    (43929, [5065]); (43930, [5066]); (43931, [5067]); (43932, [5068]);
    (43933, [5069]); (43934, [5070]); (43935, [5071]); (43936, [5072]);
    (43937, [5073]); (43938, [5074]); (43939, [5075]); (43940, [5076]);
    (43941, [5077]); (43942, [5078]); (43943, [5079]); (43944, [5080]);
    (43945, [5081]); (43946, [5082]); (43947, [5083]); (43948, [5084]);
    (43949, [5085]); (43950, [5086]); (43951, [5087]); (43952, [5088]);
    (43953, [5089]); (43954, [5090]); (43955, [5091]); (43956, [5092]);
    (43957, [5093]); (43958, [5094]); (43959, [5095]); (43960, [5096]);
    (43961, [5097]); (43962, [5098]); (43963, [5099]); (43964, [5100]);
    (43965, [5101]); (43966, [5102]); (43967, [5103]); (64256, [70; 70]);
    (64257, [70; 73]); (64258, [70; 76]); (64259, [70; 70; 73]);
    (64260, [70; 70; 76]); (64261, [83; 84]); (64262, [83; 84]);
    (64275, [1348; 1350]); (64276, [1348; 1333]); (64277, [1348; 1339]);
    (64278, [1358; 1350]); (64279, [1348; 1341]); (65345, [65313]);
    (65346, [65314]); (65347, [65315]); (65348, [65316]); (65349, [65317]);
    (65350, [65318]); (65351, [65319]); (65352, [65320]); (65353, [65321]);
    (65354, [65322]); (65355, [65323]); (65356, [65324]); (65357, [65325]);
    (65358, [65326]); (65359, [65327]); (65360, [65328]); (65361, [65329]);
    (65362, [65330]); (65363, [65331]); (65364, [65332]); (65365, [65333]);
    (65366, [65334]); (65367, [65335]); (65368, [65336]); (65369, [65337]);
    (65370, [65338]); (66600, [66560]); (66601, [66561]); (66602, [66562]);
    (66603, [66563]); (66604, [66564]); (66605, [66565]); (66606, [66566]);
    (66607, [66567]); (66608, [66568]); (66609, [66569]); (66610, [66570]);
    (66611, [66571]); (66612, [66572]); (66613, [66573]); (66614, [66574]);
    (66615, [66575]); (66616, [66576]); (66617, [66577]); (66618, [66578]);
    (66619, [66579]); (66620, [66580]); (66621, [66581]); (66622, [66582]);
    (66623, [66583]); (66624, [66584]); (66625, [66585]); (66626, [66586]);
    (66627, [66587]); (66628, [66588]); (66629, [66589]); (66630, [66590]);
    (66631, [66591]); (66632, [66592]); (66633, [66593]); (66634, [66594]);
    (66635, [66595]); (66636, [66596]); (66637, [66597]); (66638, [66598]);
    (66639, [66599]); (66776, [66736]); (66777, [66737]); (66778, [66738]);
    (66779, [66739]); (66780, [66740]); (66781, [66741]); (66782, [66742]);
    (66783, [66743]); (66784, [66744]); (66785, [66745]); (66786, [66746]);
    (66787, [66747]); (66788, [66748]); (66789, [66749]); (66790, [66750]);
    (66791, [66751]); (66792, [66752]); (66793, [66753]); (66794, [66754]);
    (66795, [66755]); (66796, [66756]); (66797, [66757]); (66798, [66758]);
    (66799, [66759]); (66800, [66760]); (66801, [66761]); (66802, [66762]);
    (66803, [66763]); (66804, [66764]); (66805, [66765]); (66806, [66766]);
    (66807, [66767]); (66808, [66768]); (66809, [66769]); (66810, [66770]);
    (66811, [66771]); (66967, [66928]); (66968, [66929]); (66969, [66930]);
    (66970, [66931]); (66971, [66932]); (66972, [66933]); (66973, [66934]);
    (66974, [66935]); (66975, [66936]); (66976, [66937]); (66977, [66938]);
    (66979, [66940]); (66980, [66941]); (66981, [66942]); (66982, [66943]);
    (66983, [66944]); (66984, [66945]); (66985, [66946]); (66986, [66947]);
    (66987, [66948]); (66988, [66949]); (66989, [66950]); (66990, [66951]);
    (66991, [66952]); (66992, [66953]); (66993, [66954]); (66995, [66956]);
    (66996, [66957]); (66997, [66958]); (66998, [66959]); (66999, [66960]);
    (67000, [66961]); (67001, [66962]); (67003, [66964]); (67004, [66965]);
    (68800, [68736]); (68801, [68737]); (68802, [68738]); (68803, [68739]);
    (68804, [68740]); (68805, [68741]); (68806, [68742]); (68807, [68743]);
    (68808, [68744]); (68809, [68745]); (68810, [68746]); (68811, [68747]);
    (68812, [68748]); (68813, [68749]); (68814, [68750]); (68815, [68751]);
    (68816, [68752]); (68817, [68753]); (68818, [68754]); (68819, [68755]);
    (68820, [68756]); (68821, [68757]); (68822, [68758]); (68823, [68759]);
    (68824, [68760]); (68825, [68761]); (68826, [68762]); (68827, [68763]);
    (68828, [68764]); (68829, [68765]); (68830, [68766]); (68831, [68767]);
    (68832, [68768]); (68833, [68769]); (68834, [68770]); (68835, [68771]);
    (68836, [68772]); (68837, [68773]); (68838, [68774]); (68839, [68775]);
    (68840, [68776]); (68841, [68777]); (68842, [68778]); (68843, [68779]);
    (68844, [68780]); (68845, [68781]); (68846, [68782]); (68847, [68783]);
    (68848, [68784]); (68849, [68785]); (68850, [68786]); (71872, [71840]);
    (71873, [71841]); (71874, [71842]); (71875, [71843]); (71876, [71844]);
    (71877, [71845]); (71878, [71846]); (71879, [71847]); (71880, [71848]);
    (71881, [71849]); (71882, [71850]); (71883, [71851]); (71884, [71852]);
    (71885, [71853]); (71886, [71854]); (71887, [71855]); (71888, [71856]);
    (71889, [71857]); (71890, [71858]); (71891, [71859]); (71892, [71860]);
    (71893, [71861]); (71894, [71862]); (71895, [71863]); (71896, [71864]);
    (71897, [71865]); (71898, [71866]); (71899, [71867]); (71900, [71868]);
    (71901, [71869]); (71902, [71870]); (71903, [71871]); (93792, [93760]);
    (93793, [93761]); (93794, [93762]); (93795, [93763]); (93796, [93764]);
    (93797, [93765]); (93798, [93766]); (93799, [93767]); (93800, [93768]);
    (93801, [93769]); (93802, [93770]); (93803, [93771]); (93804, [93772]);
    (93805, [93773]); (93806, [93774]); (93807, [93775]); (93808, [93776]);
    (93809, [93777]); (93810, [93778]); (93811, [93779]); (93812, [93780]);
    (93813, [93781]); (93814, [93782]); (93815, [93783]); (93816, [93784]);
    (93817, [93785]); (93818, [93786]); (93819, [93787]); (93820, [93788]);
    (93821, [93789]); (93822, [93790]); (93823, [93791]); (125218, [125184]);
    (125219, [125185]); (125220, [125186]); (125221, [125187]);
    (125222, [125188]); (125223, [125189]); (125224, [125190]);
    (125225, [125191]); (125226, [125192]); (125227, [125193]);
    (125228, [125194]); (125229, [125195]); (125230, [125196]);
    (125231, [125197]); (125232, [125198]); (125233, [125199]);
    (125234, [125200]); (125235, [125201]); (125236, [125202]);
    (125237, [125203]); (125238, [125204]); (125239, [125205]);
    (125240, [125206]); (125241, [125207]); (125242, [125208]);
    (125243, [125209]); (125244, [125210]); (125245, [125211]);
    (125246, [125212]); (125247, [125213]); (125248, [125214]);
    (125249, [125215]); (125250, [125216]); (125251, [125217])
  ]%N.

(** The same table, from the encoding of a character to the encoding of its
    uppercase. *)
Definition upper_of_char : gmap string string :=
  list_to_map ((λ '(cp, ups), (utf8 cp, encode ups)) <$> to_upper_full).

(** [c.upper()] for one character. *)
Definition upper_char (c : string) : string :=
  match c with
  | String b EmptyString => String (ascii_upper b) ""
  | _ => default c (upper_of_char !! c)
  end.

(** [s.upper()]: every character is replaced by its uppercase, whatever
    stands around it. *)
Definition upper (s : string) : string :=
  join (upper_char <$> chars_of s).

(** [s[n:]]. *)
Fixpoint drop_chars (n : nat) (s : string) : string :=
  match n, s with
  | O, _ => s
  | S n', String _ r => drop_chars n' r
  | S _, EmptyString => EmptyString
  end.

(** [s.partition(sep)] for a non-empty [sep]: the part before the first
    occurrence of [sep], [sep] itself and the part after it; when [sep] does
    not occur, [s] and two empty strings.  ([sep] is only ever "_", whose
    byte occurs in the encoding of no other character, and [drop_chars]
    skips [sep] itself: cutting bytes cuts characters.) *)
Fixpoint partition (s sep : string) : string * string * string :=
  if String.prefix sep s then
    (EmptyString, sep, drop_chars (String.length sep) s)
  else
    match s with
    | EmptyString => (EmptyString, EmptyString, EmptyString)
    | String c r =>
        let '(before, found, after) := partition r sep in
        (String c before, found, after)
    end.

End Py.

(** ** Values, errors and exceptions *)

(** An instant: microseconds since the epoch and, for a timezone-aware value,
    the offset from UTC in minutes. *)
Record datetime := { posix_us : Z; utcoffset_min : option Z }.

(** The Python objects the pipeline handles: what [response.json()] returns,
    plus [datetime] instances (the tests build a [Position] from one). *)
Inductive pyval :=
  | PyNone
  | PyBool (b : bool)
  | PyInt (z : Z)
  | PyFloat (f : float)
  | PyStr (s : string)
  | PyDatetime (d : datetime)
  | PyList (items : list pyval)
  | PyDict (d : gmap string pyval).

(** One entry of a pydantic [ValidationError]: what went wrong and where. *)
Inductive loc_item := LocIndex (i : nat) | LocKey (k : string).

Inductive error_type :=
  | missing          (* "Field required" *)
  | string_type      (* not a str *)
  | float_invalid    (* float_type / float_parsing *)
  | datetime_invalid (* datetime_type / datetime_parsing / ... *)
  | model_type       (* not a dict or Position *)
  | list_type.       (* not a list *)

Record line_error := { err_type : error_type; err_loc : list loc_item }.

(** Exception classes.  The first group is httpx's [HTTPError] hierarchy
    ([RequestError] with its transport errors, and [HTTPStatusError]); the
    second group is httpx exceptions that are not [HTTPError]s; then Python's
    own, pydantic's and the database client's.  [APICallFailedException] is
    declared in src/exceptions.py, which is not among the sources: it is the
    "APICallFailed" error of the client, and only its identity matters. *)
Inductive exn_class :=
  | ConnectTimeout | ReadTimeout | WriteTimeout | PoolTimeout
  | ConnectError | ReadError | WriteError | CloseError
  | LocalProtocolError | RemoteProtocolError
  | ProxyError | UnsupportedProtocol
  | DecodingError | TooManyRedirects
  | HTTPStatusError (status : Z)
  | InvalidURL | CookieConflict | StreamError
  | UnboundLocalError (name : string)
  | AttributeError (attr : string)
  | ValueError
  | JSONDecodeError
  | ValidationError (errors : list line_error)
  | APICallFailedException
  | InfluxApiException.

(** [isinstance(exc, httpx.TransportError)]. *)
Definition is_TransportError (c : exn_class) : bool :=
  match c with
  | ConnectTimeout | ReadTimeout | WriteTimeout | PoolTimeout
  | ConnectError | ReadError | WriteError | CloseError
  | LocalProtocolError | RemoteProtocolError
  | ProxyError | UnsupportedProtocol => true
  | _ => false
  end.

(** [isinstance(exc, httpx.HTTPError)]. *)
Definition is_HTTPError (c : exn_class) : bool :=
  match c with
  | DecodingError | TooManyRedirects | HTTPStatusError _ => true
  | _ => is_TransportError c
  end.

(** A raised exception with its [__cause__] and [__context__]. *)
Inductive exn :=
  | Exn (cls : exn_class) (cause context : option exn).

Definition exn_cls (e : exn) : exn_class := let 'Exn c _ _ := e in c.
Definition exn_cause (e : exn) : option exn := let 'Exn _ c _ := e in c.
Definition exn_context (e : exn) : option exn := let 'Exn _ _ c := e in c.

(** An exception raised while [handled] is being handled gets it as its
    [__context__]. *)
Definition during (handled : exn) (e : exn) : exn :=
  Exn (exn_cls e) (exn_cause e) (Some handled).

(** [raise cls()] and [raise cls() from exc]. *)
Definition new_exn (cls : exn_class) : exn := Exn cls None None.
Definition raised_from (cls : exn_class) (exc : exn) : exn :=
  Exn cls (Some exc) None.

Inductive outcome (A : Type) :=
  | Ret (a : A)
  | Raise (e : exn).
Arguments Ret {A} a.
Arguments Raise {A} e.

(** ** schema.py: the Position model *)

Record Position := {
  ticker : string;
  quantity : float;
  average_price : float;
  current_price : float;
  profit : float;
  forex_movement_impact : option float;
  initial_fill_date : datetime;
  frontend : string;
  max_buy : float;
  max_sell : float;
  pie_quantity : float;
}.

(** [Position.validate_ticker], a "before" validator: it receives the raw
    value.  Only a str has [partition]. *)
Definition validate_ticker (value : pyval) : outcome string :=
  match value with
  | PyStr value =>
      let '(ticker, _, _) := Py.partition value "_" in
      Ret (Py.upper ticker)
  | _ => Raise (new_exn (AttributeError "partition"))
  end.

(** [Position.current_value], a computed property. *)
Definition current_value (self : Position) : float :=
  (current_price self * quantity self)%float.

(** *** pydantic: field aliases *)

(** [pydantic.alias_generators.to_camel] on lower-case snake_case names:
    each underscore is dropped and the letter after it capitalised. *)
Fixpoint to_camel_from (capitalise : bool) (snake : string) : string :=
  match snake with
  | EmptyString => EmptyString
  | String c r =>
      if Ascii.eqb c "_" then to_camel_from true r
      else String (if capitalise then Py.ascii_upper c else c)
                  (to_camel_from false r)
  end.

Definition to_camel (snake : string) : string := to_camel_from false snake.

(** The alias of a field: the explicit [Field(alias=...)] when there is one,
    the generated one otherwise. *)
Definition alias_of (name : string) (explicit : option string) : string :=
  match explicit with
  | Some a => a
  | None => to_camel name
  end.

(** [populate_by_name=True]: a field is looked up by its alias and, when the
    alias is absent, by its name.  The result carries the key that matched. *)
Definition lookup_field (d : gmap string pyval) (alias name : string)
  : option (string * pyval) :=
  match d !! alias with
  | Some v => Some (alias, v)
  | None =>
      match d !! name with
      | Some v => Some (name, v)
      | None => None
      end
  end.

(** *** pydantic: validation results *)

(** A validator returns a value, or line errors (collected into one
    [ValidationError] at the end), or lets an exception of the validator
    function escape: pydantic converts only [ValueError] and [AssertionError]
    into line errors. *)
Inductive vresult (A : Type) :=
  | VOk (a : A)
  | VErrors (errors : list line_error)
  | VRaise (e : exn).
Arguments VOk {A} a.
Arguments VErrors {A} errors.
Arguments VRaise {A} e.

Definition at_loc (k : loc_item) (e : line_error) : line_error :=
  {| err_type := err_type e; err_loc := k :: err_loc e |}.

Definition with_loc {A} (k : loc_item) (r : vresult A) : vresult A :=
  match r with
  | VErrors errors => VErrors (at_loc k <$> errors)
  | _ => r
  end.

(** Fields (and list items) are validated in order: line errors accumulate,
    an escaping exception stops the validation at once. *)
Definition vap {A B} (rf : vresult (A → B)) (ra : vresult A) : vresult B :=
  match rf with
  | VRaise e => VRaise e
  | VOk f =>
      match ra with
      | VOk a => VOk (f a)
      | VErrors errors => VErrors errors
      | VRaise e => VRaise e
      end
  | VErrors errors1 =>
      match ra with
      | VOk _ => VErrors errors1
      | VErrors errors2 => VErrors (errors1 ++ errors2)
      | VRaise e => VRaise e
      end
  end.

Definition leaf {A} (ty : error_type) (o : option A) : vresult A :=
  match o with
  | Some a => VOk a
  | None => VErrors [ {| err_type := ty; err_loc := [] |} ]
  end.

(** *** pydantic: coercion to the declared types (lax mode) *)

(** [float(z)] for a Python int: the nearest binary64 number, ties to even;
    an int too large for a float is not accepted. *)
Definition int_as_float (z : Z) : option float :=
  let f := SF2Prim (binary_normalize prec emax z 0 false) in
  if is_infinity f then None else Some f.

(** What pydantic-core accepts besides the native cases below is the
    library's business: numeric strings as floats, bools as floats, ISO 8601
    strings and Unix timestamps as datetimes.  These are taken as they come. *)
Record LaxCoercions := {
  str_as_float : string → option float;
  bool_as_float : bool → option float;
  lax_datetime : pyval → option datetime;
}.

Section Validation.

Context (L : LaxCoercions).

(** A float field: a float is taken as it is, an int is converted, a str or
    a bool goes through the library's lax rules; nothing else is a float. *)
Definition validate_float (v : pyval) : option float :=
  match v with
  | PyFloat f => Some f
  | PyInt z => int_as_float z
  | PyStr s => str_as_float L s
  | PyBool b => bool_as_float L b
  | PyNone | PyDatetime _ | PyList _ | PyDict _ => None
  end.

(** A str field accepts a str and nothing else (numbers are not coerced). *)
Definition validate_str (v : pyval) : option string :=
  match v with
  | PyStr s => Some s
  | _ => None
  end.

(** A datetime field: a datetime instance is taken as it is; [None], lists
    and dicts are never datetimes; the rest is the library's lax parsing. *)
Definition validate_datetime (v : pyval) : option datetime :=
  match v with
  | PyDatetime d => Some d
  | PyNone | PyList _ | PyDict _ => None
  | _ => lax_datetime L v
  end.

(** [float | None]: [None] is accepted as such. *)
Definition nullable {A} (validator : pyval → vresult A) (v : pyval)
  : vresult (option A) :=
  match v with
  | PyNone => VOk None
  | _ =>
      match validator v with
      | VOk a => VOk (Some a)
      | VErrors errors => VErrors errors
      | VRaise e => VRaise e
      end
  end.

Definition float_field (v : pyval) : vresult float :=
  leaf float_invalid (validate_float v).

Definition str_field (v : pyval) : vresult string :=
  leaf string_type (validate_str v).

Definition datetime_field (v : pyval) : vresult datetime :=
  leaf datetime_invalid (validate_datetime v).

(** The ticker field: the "before" validator runs on the raw value, its
    result then goes through the str validation. *)
Definition ticker_field (v : pyval) : vresult string :=
  match validate_ticker v with
  | Ret ticker => str_field (PyStr ticker)
  | Raise e => VRaise e
  end.

(** One field of the model.  None of the fields has a default, so a field
    that is found under neither key is reported missing, at its alias. *)
Definition field {A} (d : gmap string pyval) (name : string)
    (explicit_alias : option string) (validator : pyval → vresult A)
  : vresult A :=
  let alias := alias_of name explicit_alias in
  match lookup_field d alias name with
  | Some (key, v) => with_loc (LocKey key) (validator v)
  | None => VErrors [ {| err_type := missing; err_loc := [LocKey alias] |} ]
  end.

Declare Scope vresult_scope.
Delimit Scope vresult_scope with V.
Notation "rf <*> ra" := (vap rf ra) (at level 61, left associativity)
  : vresult_scope.

(** Validation of one raw record as a [Position]: the fields in the order of
    the class body.  Keys that are not fields are ignored. *)
Definition validate_position (raw : pyval) : vresult Position :=
  match raw with
  | PyDict d =>
      (VOk Build_Position
         <*> field d "ticker" None ticker_field
         <*> field d "quantity" None float_field
         <*> field d "average_price" None float_field
         <*> field d "current_price" None float_field
         <*> field d "profit" (Some "ppl") float_field
         <*> field d "forex_movement_impact" (Some "fxPpl")
               (nullable float_field)
         <*> field d "initial_fill_date" None datetime_field
         <*> field d "frontend" None str_field
         <*> field d "max_buy" None float_field
         <*> field d "max_sell" None float_field
         <*> field d "pie_quantity" None float_field)%V
  | _ => VErrors [ {| err_type := model_type; err_loc := [] |} ]
  end.

(** The items of a list, from index [i] on. *)
Fixpoint validate_items (i : nat) (items : list pyval)
  : vresult (list Position) :=
  match items with
  | [] => VOk []
  | item :: rest =>
      (VOk cons
         <*> with_loc (LocIndex i) (validate_position item)
         <*> validate_items (S i) rest)%V
  end.

(** [TypeAdapter(list[Position]).validate_python]. *)
Definition validate_python (v : pyval) : vresult (list Position) :=
  match v with
  | PyList items => validate_items 0 items
  | _ => VErrors [ {| err_type := list_type; err_loc := [] |} ]
  end.

End Validation.

(** *** Attribute assignment on a Position

    [BaseModel.__setattr__] with this model's configuration (not frozen, no
    [validate_assignment], [extra] left at "ignore"): a property without a
    setter refuses, a field is overwritten without validation.  Any other
    name (private attributes, the model's own properties, unknown names)
    takes a branch that touches no field. *)
Inductive assigned :=
  | Assigned (self : Position)   (* the object after the assignment *)
  | Refused (e : exn)            (* the object is unchanged *)
  | Unvalidated                  (* a value outside the field's type was stored *)
  | NotAField.                   (* another attribute: no field changes *)

Definition py_float (v : pyval) : option float :=
  match v with PyFloat f => Some f | _ => None end.

Definition py_str (v : pyval) : option string :=
  match v with PyStr s => Some s | _ => None end.

Definition py_datetime (v : pyval) : option datetime :=
  match v with PyDatetime d => Some d | _ => None end.

Definition py_opt_float (v : pyval) : option (option float) :=
  match v with
  | PyFloat f => Some (Some f)
  | PyNone => Some None
  | _ => None
  end.

Definition store {A} (o : option A) (update : A → Position) : assigned :=
  match o with
  | Some a => Assigned (update a)
  | None => Unvalidated
  end.

Definition setattr (self : Position) (name : string) (value : pyval)
  : assigned :=
  let 'Build_Position t q ap cp pr fx ifd fe mb ms pq := self in
  if String.eqb name "current_value" then
    Refused (new_exn (AttributeError "current_value"))
  else if String.eqb name "ticker" then
    store (py_str value) (λ x, Build_Position x q ap cp pr fx ifd fe mb ms pq)
  else if String.eqb name "quantity" then
    store (py_float value) (λ x, Build_Position t x ap cp pr fx ifd fe mb ms pq)
  else if String.eqb name "average_price" then
    store (py_float value) (λ x, Build_Position t q x cp pr fx ifd fe mb ms pq)
  else if String.eqb name "current_price" then
    store (py_float value) (λ x, Build_Position t q ap x pr fx ifd fe mb ms pq)
  else if String.eqb name "profit" then
    store (py_float value) (λ x, Build_Position t q ap cp x fx ifd fe mb ms pq)
  else if String.eqb name "forex_movement_impact" then
    store (py_opt_float value)
      (λ x, Build_Position t q ap cp pr x ifd fe mb ms pq)
  else if String.eqb name "initial_fill_date" then
    store (py_datetime value)
      (λ x, Build_Position t q ap cp pr fx x fe mb ms pq)
  else if String.eqb name "frontend" then
    store (py_str value) (λ x, Build_Position t q ap cp pr fx ifd x mb ms pq)
  else if String.eqb name "max_buy" then
    store (py_float value) (λ x, Build_Position t q ap cp pr fx ifd fe x ms pq)
  else if String.eqb name "max_sell" then
    store (py_float value) (λ x, Build_Position t q ap cp pr fx ifd fe mb x pq)
  else if String.eqb name "pie_quantity" then
    store (py_float value) (λ x, Build_Position t q ap cp pr fx ifd fe mb ms x)
  else NotAField.

(** The declared fields, in the order of the class body. *)
Definition model_fields : list string :=
  [ "ticker"; "quantity"; "average_price"; "current_price"; "profit";
    "forex_movement_impact"; "initial_fill_date"; "frontend"; "max_buy";
    "max_sell"; "pie_quantity" ].

(** [getattr(self, name)] for a field or the computed field. *)
Definition getattr (self : Position) (name : string) : option pyval :=
  if String.eqb name "current_value" then Some (PyFloat (current_value self))
  else if String.eqb name "ticker" then Some (PyStr (ticker self))
  else if String.eqb name "quantity" then Some (PyFloat (quantity self))
  else if String.eqb name "average_price" then
    Some (PyFloat (average_price self))
  else if String.eqb name "current_price" then
    Some (PyFloat (current_price self))
  else if String.eqb name "profit" then Some (PyFloat (profit self))
  else if String.eqb name "forex_movement_impact" then
    Some (match forex_movement_impact self with
          | Some f => PyFloat f
          | None => PyNone
          end)
  else if String.eqb name "initial_fill_date" then
    Some (PyDatetime (initial_fill_date self))
  else if String.eqb name "frontend" then Some (PyStr (frontend self))
  else if String.eqb name "max_buy" then Some (PyFloat (max_buy self))
  else if String.eqb name "max_sell" then Some (PyFloat (max_sell self))
  else if String.eqb name "pie_quantity" then
    Some (PyFloat (pie_quantity self))
  else None.

(** The annotations of the class body: [value] is an instance of the
    declared type of the field [name] ([str], [float], [float | None] or
    [datetime]). *)
Definition of_declared_type (name : string) (value : pyval) : bool :=
  if String.eqb name "ticker" || String.eqb name "frontend" then
    match value with PyStr _ => true | _ => false end
  else if String.eqb name "initial_fill_date" then
    match value with PyDatetime _ => true | _ => false end
  else if String.eqb name "forex_movement_impact" then
    match value with PyFloat _ | PyNone => true | _ => false end
  else if bool_decide (name ∈ [ "quantity"; "average_price"; "current_price";
                                "profit"; "max_buy"; "max_sell";
                                "pie_quantity" ]) then
    match value with PyFloat _ => true | _ => false end
  else false.

(** ** influxdb_client.Point *)

Record Point := {
  point_name : string;
  point_tags : gmap string pyval;
  point_fields : gmap string pyval;
  point_time : option datetime;
}.

(** [Point(name)]. *)
Definition Point_new (name : string) : Point :=
  {| point_name := name; point_tags := ∅; point_fields := ∅;
     point_time := None |}.

(** [point.tag(key, value)]. *)
Definition tag (key : string) (value : pyval) (pt : Point) : Point :=
  {| point_name := point_name pt;
     point_tags := <[key := value]> (point_tags pt);
     point_fields := point_fields pt;
     point_time := point_time pt |}.

(** [point.field(key, value)]. *)
Definition add_field (key : string) (value : pyval) (pt : Point) : Point :=
  {| point_name := point_name pt;
     point_tags := point_tags pt;
     point_fields := <[key := value]> (point_fields pt);
     point_time := point_time pt |}.

(** [point.time(time)]. *)
Definition set_time (time : datetime) (pt : Point) : Point :=
  {| point_name := point_name pt;
     point_tags := point_tags pt;
     point_fields := point_fields pt;
     point_time := Some time |}.

(** A [float | None] attribute as a Python object. *)
Definition of_opt_float (o : option float) : pyval :=
  match o with
  | Some f => PyFloat f
  | None => PyNone
  end.

(** The body of [Position.to_point] once [time] is known. *)
Definition build_point (self : Position) (time : datetime) : Point :=
  set_time time
    (add_field "current_value" (PyFloat (current_value self))
    (add_field "forex_movement_impact"
       (of_opt_float (forex_movement_impact self))
    (add_field "profit" (PyFloat (profit self))
    (add_field "quantity" (PyFloat (quantity self))
    (add_field "average_price" (PyFloat (average_price self))
    (add_field "current_price" (PyFloat (current_price self))
    (tag "ticker" (PyStr (ticker self))
    (Point_new "stock_price")))))))).

(** ** The world the program runs in *)

(** settings.py: values read from the environment when the module loads. *)
Record Settings := {
  t212_api_key : string;
  t212_url : string;
  influxdb_token : string;
  influxdb_org : string;
  influxdb_url : string;
  stocks_bucket_name : string;
}.

(** An httpx response: its status code and, when the body is JSON, what
    [response.json()] returns. *)
Record Response := { status_code : Z; json : option pyval }.

(** What the one HTTP GET of a run does. *)
Inductive get_outcome :=
  | GetRaises (cls : exn_class)
  | GetReturns (response : Response).

(** What the program cannot decide: its settings, the answer to the GET, the
    successive readings of the clock, and whether the database write fails. *)
Record World := {
  settings : Settings;
  http_get : get_outcome;
  clock : nat → datetime;
  influx_write : option exn_class;
}.

(** What a run does to the outside, in order. *)
Inductive event :=
  | ClientCreated (key : string)
  | HttpGet (url authorization : string)
  | ClientClosed
  | LogError (status : Z) (exc : exn)
  | LogInfo (message : string)
  | InfluxClientCreated (url token org : string)
  | InfluxWrite (bucket org : string) (record : list Point).

(** The state a run threads: the events so far, the number of clock
    readings so far, and the local variable [response] of
    [get_open_positions] ([None] while it is unbound). *)
Record State := {
  events : list event;
  clock_reads : nat;
  response_var : option Response;
}.

Definition initial : State :=
  {| events := []; clock_reads := 0; response_var := None |}.

(** Computations: they read the world, change the state, and return or
    raise. *)
Definition M (A : Type) : Type := World → State → outcome A * State.

Definition ret {A} (a : A) : M A := λ _ s, (Ret a, s).

Definition bind {A B} (m : M A) (k : A → M B) : M B :=
  λ w s,
    match m w s with
    | (Ret a, s') => k a w s'
    | (Raise e, s') => (Raise e, s')
    end.

Definition raise {A} (e : exn) : M A := λ _ s, (Raise e, s).

Declare Scope py_scope.
Delimit Scope py_scope with py.
Notation "x <- m ;; k" := (bind m (λ x, k))
  (at level 100, m at next level, right associativity) : py_scope.
Notation "m ;; k" := (bind m (λ _, k))
  (at level 100, right associativity) : py_scope.
Local Open Scope py_scope.

Definition emit (ev : event) : M unit :=
  λ _ s,
    (Ret tt, {| events := events s ++ [ev]; clock_reads := clock_reads s;
                response_var := response_var s |}).

Definition ask : M World := λ w s, (Ret w, s).

(** [try: body finally: final]. *)
Definition try_finally {A} (body : M A) (final : M unit) : M A :=
  λ w s,
    let '(r, s1) := body w s in
    match final w s1 with
    | (Ret _, s2) => (r, s2)
    | (Raise e, s2) => (Raise e, s2)
    end.

(** [try: body except HTTPError as exc: handler(exc)]. *)
Definition try_except_HTTPError {A} (body : M A) (handler : exn → M A) : M A :=
  λ w s,
    match body w s with
    | (Ret a, s1) => (Ret a, s1)
    | (Raise exc, s1) =>
        if is_HTTPError (exn_cls exc) then
          match handler exc w s1 with
          | (Ret a, s2) => (Ret a, s2)
          | (Raise e, s2) => (Raise (during exc e), s2)
          end
        else (Raise exc, s1)
    end.

(** [datetime.now(tz=UTC)]: the next reading of the clock. *)
Definition now : M datetime :=
  λ w s,
    (Ret (clock w (clock_reads s)),
     {| events := events s; clock_reads := S (clock_reads s);
        response_var := response_var s |}).

(** [response = value]. *)
Definition assign_response (value : Response) : M unit :=
  λ _ s,
    (Ret tt, {| events := events s; clock_reads := clock_reads s;
                response_var := Some value |}).

(** Reading the local variable [response]. *)
Definition read_response : M Response :=
  λ _ s,
    match response_var s with
    | Some response => (Ret response, s)
    | None => (Raise (new_exn (UnboundLocalError "response")), s)
    end.

(** [[f(x) for x in xs]]. *)
Fixpoint for_each {A B} (f : A → M B) (xs : list A) : M (list B) :=
  match xs with
  | [] => ret []
  | x :: rest =>
      y <- f x ;;
      ys <- for_each f rest ;;
      ret (y :: ys)
  end.

(** ** schema.py: Position.to_point *)

Definition to_point (self : Position) (time : option datetime) : M Point :=
  time <- match time with
          | None => now
          | Some time => ret time
          end ;;
  ret (build_point self time).

(** ** clients/t212.py *)

(** An [httpx.Client] whose auth flow puts [key] in the Authorization
    header of every request. *)
Record Client := { auth_key : string }.

Definition Client_new (key : string) : M Client :=
  emit (ClientCreated key) ;;
  ret {| auth_key := key |}.

Definition Client_close (client : Client) : M unit := emit ClientClosed.

(** [client.get(url)]. *)
Definition Client_get (client : Client) (url : string) : M Response :=
  emit (HttpGet url (auth_key client)) ;;
  w <- ask ;;
  match http_get w with
  | GetRaises cls => raise (new_exn cls)
  | GetReturns response => ret response
  end.

(** [response.raise_for_status()]: anything but a 2xx status raises. *)
Definition raise_for_status (response : Response) : M unit :=
  if (200 <=? status_code response)%Z && (status_code response <=? 299)%Z
  then ret tt
  else raise (new_exn (HTTPStatusError (status_code response))).

(** [with get_t212_client() as client: body(client)]. *)
Definition get_t212_client {A} (body : Client → M A) : M A :=
  w <- ask ;;
  client <- Client_new (t212_api_key (settings w)) ;;
  try_finally (body client) (Client_close client).

Section Run.

Context (L : LaxCoercions).

Definition get_open_positions : M (list Position) :=
  try_except_HTTPError
    (get_t212_client (λ client,
       w <- ask ;;
       response <- Client_get client (t212_url (settings w)) ;;
       assign_response response) ;;
     response <- read_response ;;
     raise_for_status response)
    (λ exc,
       response <- read_response ;;
       emit (LogError (status_code response) exc) ;;
       raise (raised_from APICallFailedException exc)) ;;
  emit (LogInfo "API call to Trading212 successful.") ;;
  response <- read_response ;;
  match json response with
  | None => raise (new_exn JSONDecodeError)
  | Some data =>
      match validate_python L data with
      | VOk positions => ret positions
      | VErrors errors => raise (new_exn (ValidationError errors))
      | VRaise e => raise e
      end
  end.

(** ** clients/influxdb.py *)

Definition push_data_to_influxdb (points : list Point) (bucket : string)
  : M unit :=
  w <- ask ;;
  emit (InfluxClientCreated (influxdb_url (settings w))
          (influxdb_token (settings w)) (influxdb_org (settings w))) ;;
  emit (InfluxWrite bucket (influxdb_org (settings w)) points) ;;
  match influx_write w with
  | Some cls => raise (new_exn cls)
  | None => ret tt
  end ;;
  emit (LogInfo "Data pushed to InfluxDB successfully.") ;;
  ret tt.

(** ** main.py *)

Definition main : M unit :=
  positions <- get_open_positions ;;
  timestamp <- now ;;
  points <- for_each (λ position, to_point position (Some timestamp))
              positions ;;
  w <- ask ;;
  push_data_to_influxdb points (stocks_bucket_name (settings w)).

End Run.

(** Observations on a finished run. *)
Definition is_write (ev : event) : bool :=
  match ev with InfluxWrite _ _ _ => true | _ => false end.

Definition is_created (ev : event) : bool :=
  match ev with ClientCreated _ => true | _ => false end.

Definition is_closed (ev : event) : bool :=
  match ev with ClientClosed => true | _ => false end.

Definition is_get (ev : event) : bool :=
  match ev with HttpGet _ _ => true | _ => false end.

Fixpoint count (p : event → bool) (evs : list event) : nat :=
  match evs with
  | [] => 0
  | ev :: rest => (if p ev then 1 else 0) + count p rest
  end.

(** [with_ticker self t]: [self] with its ticker replaced. *)
Definition with_ticker (self : Position) (t : string) : Position :=
  {| ticker := t; quantity := quantity self;
     average_price := average_price self;
     current_price := current_price self; profit := profit self;
     forex_movement_impact := forex_movement_impact self;
     initial_fill_date := initial_fill_date self; frontend := frontend self;
     max_buy := max_buy self; max_sell := max_sell self;
     pie_quantity := pie_quantity self |}.

Definition with_forex_movement_impact (self : Position) (fx : option float)
  : Position :=
  {| ticker := ticker self; quantity := quantity self;
     average_price := average_price self;
     current_price := current_price self; profit := profit self;
     forex_movement_impact := fx;
     initial_fill_date := initial_fill_date self; frontend := frontend self;
     max_buy := max_buy self; max_sell := max_sell self;
     pie_quantity := pie_quantity self |}.

(** The names of the six fields of a point. *)
Definition point_field_names : gset string :=
  {[ "current_price"; "average_price"; "quantity"; "profit";
     "forex_movement_impact"; "current_value" ]}.

(** A string holds no underscore, decided character by character. *)
Fixpoint no_underscore (s : string) : bool :=
  match s with
  | EmptyString => true
  | String c r => if Ascii.eqb c "_" then false else no_underscore r
  end.

(** Observations on validation results. *)
Definition is_VOk {A} (r : vresult A) : bool :=
  match r with VOk _ => true | _ => false end.

Definition is_VRaise {A} (r : vresult A) : bool :=
  match r with VRaise _ => true | _ => false end.

(** [r] reports the line error [e] (or was cut short by an exception). *)
Definition reports {A} (e : line_error) (r : vresult A) : Prop :=
  match r with
  | VOk _ => False
  | VErrors errors => e ∈ errors
  | VRaise _ => True
  end.

(** A line error of the [j]-th item of the list. *)
Definition located_at (j : nat) (e : line_error) : Prop :=
  ∃ rest, err_loc e = LocIndex j :: rest.

(** Every ticker that is present in a record of [items] is a str. *)
Definition str_tickers (items : list pyval) : Prop :=
  ∀ (d : gmap string pyval) (v : pyval),
    PyDict d ∈ items → d !! "ticker" = Some v → ∃ s, v = PyStr s.


(** A rejection names at least one line error. *)
Definition names_an_error {A} (r : vresult A) : Prop :=
  match r with
  | VErrors [] => False
  | _ => True
  end.

(** ** Fixtures: the data of tests/test_schema.py and tests/test_t212_client.py *)

Module Fixtures.

(** 2025-03-13 10:10:10 UTC. *)
Definition DEFAULT_TIME : datetime :=
  {| posix_us := 1741860610000000; utcoffset_min := Some 0%Z |}.

(** 2025-03-12 20:00:00 +03:00. *)
Definition FILL_TIME : datetime :=
  {| posix_us := 1741798800000000; utcoffset_min := Some 180%Z |}.

(** Lax rules that know the one timestamp string of the fixtures and accept
    neither numeric strings nor bools as floats. *)
Definition lax : LaxCoercions :=
  {| str_as_float := λ _, None;
     bool_as_float := λ _, None;
     lax_datetime := λ v,
       match v with
       | PyStr s =>
           if String.eqb s "2025-03-12T20:00:00.000+03:00"
           then Some FILL_TIME else None
       | _ => None
       end |}.

(** DEFAULT_SCHEMA_INIT_ARGS. *)
Definition DEFAULT_SCHEMA_INIT_ARGS : gmap string pyval :=
  list_to_map
    [ ("ticker", PyStr "TEST"); ("quantity", PyFloat 2);
      ("average_price", PyFloat 10.5); ("current_price", PyFloat 12.5);
      ("profit", PyFloat 10.1); ("forex_movement_impact", PyFloat 0.5);
      ("initial_fill_date", PyDatetime DEFAULT_TIME);
      ("frontend", PyStr "app"); ("max_buy", PyInt 1000);
      ("max_sell", PyFloat 2); ("pie_quantity", PyInt 0) ].

Definition test_position : Position :=
  {| ticker := "TEST"; quantity := 2; average_price := 10.5;
     current_price := 12.5; profit := 10.1;
     forex_movement_impact := Some 0.5%float;
     initial_fill_date := DEFAULT_TIME; frontend := "app";
     max_buy := 1000; max_sell := 2; pie_quantity := 0 |}.

(** The first record of DEFAULT_RESPONSE_CONTENT, as a list of items. *)
Definition TEST1_items : list (string * pyval) :=
  [ ("ticker", PyStr "TEST1_US_EQ"); ("quantity", PyFloat 0.168629);
    ("averagePrice", PyFloat 52.8971885); ("currentPrice", PyFloat 56.73);
    ("ppl", PyFloat 0.99); ("fxPpl", PyFloat 0.27);
    ("initialFillDate", PyStr "2025-03-12T20:00:00.000+03:00");
    ("frontend", PyStr "SYSTEM"); ("maxBuy", PyFloat 1000.1);
    ("maxSell", PyInt 1000); ("pieQuantity", PyInt 0) ].

Definition TEST1 : gmap string pyval := list_to_map TEST1_items.

(** The second record of DEFAULT_RESPONSE_CONTENT. *)
Definition TEST2 : gmap string pyval :=
  list_to_map
    [ ("ticker", PyStr "TEST2_US_EQ"); ("quantity", PyInt 1);
      ("averagePrice", PyFloat 30.7); ("currentPrice", PyFloat 24.92);
      ("ppl", PyFloat (-4.9)); ("fxPpl", PyFloat 0.94);
      ("initialFillDate", PyStr "2025-03-12T20:00:00.000+03:00");
      ("frontend", PyStr "ANDROID"); ("maxBuy", PyInt 1000);
      ("maxSell", PyInt 1000); ("pieQuantity", PyInt 0) ].

Definition TEST2_position : Position :=
  {| ticker := "TEST2"; quantity := 1; average_price := 30.7;
     current_price := 24.92; profit := (-4.9)%float;
     forex_movement_impact := Some 0.94%float;
     initial_fill_date := FILL_TIME; frontend := "ANDROID";
     max_buy := 1000; max_sell := 1000; pie_quantity := 0 |}.

Definition TEST1_position : Position :=
  {| ticker := "TEST1"; quantity := 0.168629; average_price := 52.8971885;
     current_price := 56.73; profit := 0.99;
     forex_movement_impact := Some 0.27%float;
     initial_fill_date := FILL_TIME; frontend := "SYSTEM";
     max_buy := 1000.1; max_sell := 1000; pie_quantity := 0 |}.

(** The same record without its fxPpl key, with a null fxPpl, and with a
    number for a ticker. *)
Definition TEST1_without_fxPpl : gmap string pyval := delete "fxPpl" TEST1.

Definition TEST1_null_fxPpl : gmap string pyval := <["fxPpl" := PyNone]> TEST1.

Definition TEST1_numeric_ticker : gmap string pyval :=
  <["ticker" := PyInt 5]> TEST1.

Definition test_settings : Settings :=
  {| t212_api_key := "key"; t212_url := "https://t212.test/positions";
     influxdb_token := "token"; influxdb_org := "org";
     influxdb_url := "http://influx.test"; stocks_bucket_name := "stocks" |}.

(** A world whose clock advances by one second at every reading. *)
Definition world_with (answer : get_outcome) : World :=
  {| settings := test_settings;
     http_get := answer;
     clock := λ n,
       {| posix_us := posix_us DEFAULT_TIME + 1000000 * Z.of_nat n;
          utcoffset_min := Some 0%Z |};
     influx_write := None |}.

(** The answer of test_get_open_positions and that of
    test_get_open_positions_failed. *)
Definition DEFAULT_RESPONSE : Response :=
  {| status_code := 200;
     json := Some (PyList [PyDict TEST1; PyDict TEST2]) |}.

Definition FAILED_RESPONSE : Response :=
  {| status_code := 400; json := Some (PyDict ∅) |}.

End Fixtures.

(** ** Further observations on the model *)

(** The ticker that [validate_ticker] returns for the str [raw]. *)
Definition normalised_ticker (raw : string) : string :=
  Py.upper (Py.partition raw "_").1.1.

(** The keyword arguments that rebuild a position by field names, the way
    tests/test_schema.py builds one from DEFAULT_SCHEMA_INIT_ARGS. *)
Definition as_kwargs (self : Position) : gmap string pyval :=
  list_to_map
    [ ("ticker", PyStr (ticker self));
      ("quantity", PyFloat (quantity self));
      ("average_price", PyFloat (average_price self));
      ("current_price", PyFloat (current_price self));
      ("profit", PyFloat (profit self));
      ("forex_movement_impact", of_opt_float (forex_movement_impact self));
      ("initial_fill_date", PyDatetime (initial_fill_date self));
      ("frontend", PyStr (frontend self));
      ("max_buy", PyFloat (max_buy self));
      ("max_sell", PyFloat (max_sell self));
      ("pie_quantity", PyFloat (pie_quantity self)) ].

(** The fields with their aliases, and those whose alias differs from the
    name. *)
Definition field_aliases : list (string * string) :=
  [ ("ticker", "ticker"); ("quantity", "quantity");
    ("average_price", "averagePrice"); ("current_price", "currentPrice");
    ("profit", "ppl"); ("forex_movement_impact", "fxPpl");
    ("initial_fill_date", "initialFillDate"); ("frontend", "frontend");
    ("max_buy", "maxBuy"); ("max_sell", "maxSell");
    ("pie_quantity", "pieQuantity") ].

Definition renamed_fields : list (string * string) :=
  filter (λ na, na.1 ≠ na.2) field_aliases.

(** Every key under which a field is looked up. *)
Definition field_keys : list string :=
  field_aliases.*1 ++ field_aliases.*2.

(** The part of a position that [to_point] puts into the point. *)
Definition written_part (self : Position)
  : string * float * float * float * float * option float :=
  (ticker self, current_price self, average_price self, quantity self,
   profit self, forex_movement_impact self).

(** ** settings.py: where the settings come from *)

Definition NOT_SET : string := "NOT_SET".

(** What pydantic-settings reads: the variables of the process and the
    entries of the ".env" file (BASE_SETTINGS).  Names are matched without
    regard to case, so both maps are keyed by lower-cased names. *)
Record Environment := {
  os_environ : gmap string string;
  dotenv : gmap string string;
}.

Definition ascii_lower (c : ascii) : ascii :=
  let n := nat_of_ascii c in
  if (65 <=? n)%nat && (n <=? 90)%nat then ascii_of_nat (n + 32) else c.

Fixpoint lower (s : string) : string :=
  match s with
  | EmptyString => EmptyString
  | String c r => String (ascii_lower c) (lower r)
  end.

(** One str field of a settings class: the process variable named by the
    prefix and the field, else the entry of the ".env" file, else the
    default of the class body. *)
Definition setting (env : Environment) (env_prefix name default : string)
  : string :=
  let key := lower (env_prefix ++ name) in
  match os_environ env !! key with
  | Some value => value
  | None =>
      match dotenv env !! key with
      | Some value => value
      | None => default
      end
  end.

(** [T212Settings()] and [InfluxDBSettings()], the two module-level objects. *)
Definition load_settings (env : Environment) : Settings :=
  {| t212_api_key := setting env "T212_" "api_key" NOT_SET;
     t212_url := setting env "T212_" "url" NOT_SET;
     influxdb_token := setting env "INFLUXDB_" "token" NOT_SET;
     influxdb_org := setting env "INFLUXDB_" "org" NOT_SET;
     influxdb_url := setting env "INFLUXDB_" "url" NOT_SET;
     stocks_bucket_name := setting env "INFLUXDB_" "stocks_bucket_name"
                             "stocks" |}.

(** The variable is set neither in the process nor in the ".env" file. *)
Definition unset (env : Environment) (key : string) : Prop :=
  os_environ env !! key = None ∧ dotenv env !! key = None.

(** The state after [n] more readings of the clock. *)
Definition after_reads (n : nat) (s : State) : State :=
  {| events := events s; clock_reads := clock_reads s + n;
     response_var := response_var s |}.

(** ** clients/t212.py: Trading212APIKeyAuth *)

(** [httpx.Headers]: the header lines in order.  Names are compared without
    regard to case. *)
Definition Headers : Type := list (string * string).

Definition named (name : string) (h : string * string) : bool :=
  String.eqb (lower h.1) (lower name).

(** [headers.get_list(name)]: the values of the lines called [name]. *)
Fixpoint get_list (name : string) (headers : Headers) : list string :=
  match headers with
  | [] => []
  | h :: rest =>
      if named name h then h.2 :: get_list name rest
      else get_list name rest
  end.

(** The lines of [headers] that are not called [name]. *)
Fixpoint without (name : string) (headers : Headers) : Headers :=
  match headers with
  | [] => []
  | h :: rest =>
      if named name h then without name rest else h :: without name rest
  end.

(** [headers[name] = value]: the first line called [name] is replaced and
    the later ones are dropped; without such a line, one is appended. *)
Fixpoint setitem (name value : string) (headers : Headers) : Headers :=
  match headers with
  | [] => [(name, value)]
  | h :: rest =>
      if named name h then (name, value) :: without name rest
      else h :: setitem name value rest
  end.

Record Request := {
  request_method : string;
  request_url : string;
  request_headers : Headers;
}.

(** A generator-based auth flow: it yields a request to send and is resumed
    with the response, or it is over. *)
Inductive flow :=
  | Yield (request : Request) (resume : Response → flow)
  | Over.

(** [Trading212APIKeyAuth(key).auth_flow(request)]. *)
Definition auth_flow (key : string) (request : Request) : flow :=
  Yield {| request_method := request_method request;
           request_url := request_url request;
           request_headers :=
             setitem "Authorization" key (request_headers request) |}
        (λ _, Over).

(** The requests a flow sends to a server that answers by [send]. *)
Fixpoint requests_sent (send : Request → Response) (f : flow) : list Request :=
  match f with
  | Yield request resume => request :: requests_sent send (resume (send request))
  | Over => []
  end.

(** ** Text as code points *)

(** The code points a str may hold. *)
Definition valid_code_point (cp : N) : Prop := (cp < 1114112)%N.

(** [ord(c)] for a character given by its encoding. *)
Definition code_point (c : string) : N :=
  let n := N_of_ascii in
  match c with
  | EmptyString => 0
  | String b0 EmptyString => n b0
  | String b0 (String b1 EmptyString) => (n b0 - 192) * 64 + (n b1 - 128)
  | String b0 (String b1 (String b2 EmptyString)) =>
      (n b0 - 224) * 4096 + (n b1 - 128) * 64 + (n b2 - 128)
  | String b0 (String b1 (String b2 (String b3 _))) =>
      (n b0 - 240) * 262144 + (n b1 - 128) * 4096 + (n b2 - 128) * 64
      + (n b3 - 128)
  end%N.

(** [chr(cp).upper()] as code points: in ASCII a..z lose 32 and the rest
    stays; outside it the characters of [Py.to_upper_full] get their mapping
    and every other one stays. *)
Definition to_upper (cp : N) : list N :=
  if (cp <? 128)%N then
    [if (97 <=? cp)%N && (cp <=? 122)%N then (cp - 32)%N else cp]
  else default [cp] ((list_to_map Py.to_upper_full : gmap N (list N)) !! cp).

(** The encoding of one whole character: a leading byte and as many bytes
    as it announces. *)
Definition complete (c : string) : bool :=
  match c with
  | EmptyString => false
  | String b r => Nat.eqb (String.length r) (Py.continuation_bytes b)
  end.

(** What holds of every line of [Py.to_upper_full]: the character is a valid
    code point outside ASCII, both maps know the line, and the characters of
    the mapping are whole, hold no underscore and are their own uppercase. *)
Definition line_ok (line : N * list N) : bool :=
  let '(cp, ups) := line in
  bool_decide (128 ≤ cp < 1114112)%N &&
  bool_decide ((list_to_map Py.to_upper_full : gmap N (list N)) !! cp
               = Some ups) &&
  bool_decide (Py.upper_of_char !! Py.utf8 cp = Some (Py.encode ups)) &&
  forallb (λ up, complete (Py.utf8 up) &&
                 no_underscore (Py.utf8 up) &&
                 bool_decide (Py.upper_char (Py.utf8 up) = Py.utf8 up)) ups.

(** * Properties *)

(** A string holds no underscore when it cannot be cut around one. *)
Definition underscore_free (s : string) : Prop :=
  ∀ a b : string, s ≠ a ++ String "_" b.

Lemma partition_no_underscore (s : string) :
  underscore_free s → Py.partition s "_" = (s, "", "").
Proof.
  induction s as [|c r IH]; intros Hfree; [done|].
  cbn [Py.partition String.prefix].
  destruct (ascii_dec "_" c) as [<-|Hc].
  - exfalso. by apply (Hfree "" r).
  - rewrite IH; [done|].
    intros a b ->. by apply (Hfree (String c a) b).
Qed.

Lemma partition_first_underscore (h t : string) :
  underscore_free h →
  Py.partition (h ++ String "_" t) "_" = (h, "_", t).
Proof.
  induction h as [|c r IH]; intros Hfree.
  - cbn. by destruct t.
  - change (String c r ++ String "_" t) with (String c (r ++ String "_" t)).
    cbn [Py.partition String.prefix].
    destruct (ascii_dec "_" c) as [<-|Hc].
    + exfalso. by apply (Hfree "" r).
    + rewrite IH; [done|].
      intros a b ->. by apply (Hfree (String c a) b).
Qed.

Lemma no_underscore_free (s : string) :
  no_underscore s = true → underscore_free s.
Proof.
  induction s as [|c r IH]; intros Hb a b Heq.
  - by destruct a.
  - cbn in Hb. destruct (Ascii.eqb_spec c "_") as [->|Hne]; [done|].
    destruct a as [|c' a']; cbn in Heq; inversion Heq; subst.
    + done.
    + by apply (IH Hb a' b).
Qed.

(** ** Text: the encoding and upper-casing *)

Ltac div_lia := intros; zify; Z.to_euclidean_division_equations; lia.

Ltac each_byte b := destruct b as [[] [] [] [] [] [] [] []].

Lemma append_cons (c : ascii) (a b : string) :
  String c a ++ b = String c (a ++ b).
Proof. done. Qed.

Lemma append_nil_r (s : string) : s ++ "" = s.
Proof. induction s as [|c r IH]; [done|]. by rewrite append_cons, IH. Qed.

Lemma append_assoc (a b c : string) : (a ++ b) ++ c = a ++ (b ++ c).
Proof. induction a as [|x r IH]; [done|]. by rewrite !append_cons, IH. Qed.

Lemma join_cons (c : string) (l : list string) :
  Py.join (c :: l) = c ++ Py.join l.
Proof. done. Qed.

Lemma join_app (l k : list string) :
  Py.join (l ++ k) = Py.join l ++ Py.join k.
Proof.
  induction l as [|c l IH]; [done|].
  by rewrite <- app_comm_cons, !join_cons, IH, append_assoc.
Qed.

Lemma encode_app (l k : list N) :
  Py.encode (l ++ k) = Py.encode l ++ Py.encode k.
Proof. unfold Py.encode. by rewrite fmap_app, join_app. Qed.

Lemma encode_cons (cp : N) (l : list N) :
  Py.encode (cp :: l) = Py.utf8 cp ++ Py.encode l.
Proof. done. Qed.

Lemma no_underscore_app (a b : string) :
  no_underscore (a ++ b) = no_underscore a && no_underscore b.
Proof.
  induction a as [|c r IH]; [done|]. rewrite append_cons. cbn.
  by destruct (Ascii.eqb c "_").
Qed.

Lemma no_underscore_join (l : list string) :
  no_underscore (Py.join l) = forallb no_underscore l.
Proof.
  induction l as [|c l IH]; [done|].
  rewrite join_cons, no_underscore_app, IH. done.
Qed.

(** *** Bytes *)

Lemma byte_not_underscore (n : N) :
  (n < 256)%N → n ≠ 95%N → Ascii.eqb (ascii_of_N n) "_" = false.
Proof.
  intros Hn Hne. destruct (Ascii.eqb_spec (ascii_of_N n) "_") as [Heq|]; [|done].
  apply (f_equal N_of_ascii) in Heq. rewrite N_ascii_embedding in Heq by done.
  done.
Qed.

Lemma continuation_bytes_le (b : ascii) : (Py.continuation_bytes b ≤ 3)%nat.
Proof. unfold Py.continuation_bytes. repeat case_match; lia. Qed.

Lemma ascii_upper_idemp (c : ascii) :
  Py.ascii_upper (Py.ascii_upper c) = Py.ascii_upper c.
Proof. by each_byte c. Qed.

Lemma ascii_upper_underscore (c : ascii) :
  Ascii.eqb (Py.ascii_upper c) "_" = Ascii.eqb c "_".
Proof. by each_byte c. Qed.

Lemma ascii_upper_continuation_bytes (c : ascii) :
  Py.continuation_bytes (Py.ascii_upper c) = Py.continuation_bytes c.
Proof. by each_byte c. Qed.

Lemma ascii_upper_lead (c : ascii) :
  Py.continuation_bytes c ≠ 0 → Py.ascii_upper c = c.
Proof. by each_byte c. Qed.

Lemma ascii_upper_code (c : ascii) :
  Py.ascii_upper c
  = ascii_of_N (let n := N_of_ascii c in
                if (97 <=? n)%N && (n <=? 122)%N then n - 32 else n)%N.
Proof. by each_byte c. Qed.

(** *** The encoding of one code point *)

Ltac utf8_cases cp :=
  unfold Py.utf8;
  destruct (N.ltb_spec cp 128);
  [|destruct (N.ltb_spec cp 2048); [|destruct (N.ltb_spec cp 65536)]].

Ltac ltb_cases :=
  repeat match goal with
         | |- context [N.ltb ?a ?b] => destruct (N.ltb_spec a b)
         end.

Lemma utf8_complete (cp : N) :
  valid_code_point cp → complete (Py.utf8 cp) = true.
Proof.
  unfold valid_code_point. intros Hcp. utf8_cases cp;
    cbn [complete String.length]; unfold Py.continuation_bytes;
    rewrite N_ascii_embedding by div_lia; ltb_cases; try done; div_lia.
Qed.

Lemma code_point_utf8 (cp : N) :
  valid_code_point cp → code_point (Py.utf8 cp) = cp.
Proof.
  unfold valid_code_point. intros Hcp. utf8_cases cp; cbn [code_point];
    rewrite !N_ascii_embedding by div_lia; div_lia.
Qed.

Lemma utf8_inj (cp cp' : N) :
  valid_code_point cp → valid_code_point cp' →
  Py.utf8 cp = Py.utf8 cp' → cp = cp'.
Proof.
  intros Hcp Hcp' Heq. apply (f_equal code_point) in Heq.
  by rewrite !code_point_utf8 in Heq.
Qed.

Lemma utf8_no_underscore (cp : N) :
  valid_code_point cp → cp ≠ 95%N → no_underscore (Py.utf8 cp) = true.
Proof.
  unfold valid_code_point. intros Hcp Hne. utf8_cases cp; cbn [no_underscore];
    rewrite !byte_not_underscore by div_lia; done.
Qed.

Lemma utf8_ascii (cp : N) :
  (cp < 128)%N → Py.utf8 cp = String (ascii_of_N cp) "".
Proof. intros Hcp. unfold Py.utf8. by destruct (N.ltb_spec cp 128); [|lia]. Qed.

Lemma utf8_long (cp : N) :
  (128 ≤ cp)%N → ∃ b0 b1 r, Py.utf8 cp = String b0 (String b1 r).
Proof. intros Hcp. utf8_cases cp; [lia|eauto..]. Qed.

(** *** Characters of a string *)

Lemma chars_of_app (c r : string) :
  complete c = true → Py.chars_of (c ++ r) = c :: Py.chars_of r.
Proof.
  destruct c as [|b0 t]; [done|]. cbn [complete].
  intros Hlen%Nat.eqb_eq. rewrite append_cons.
  pose proof (continuation_bytes_le b0) as Hle.
  destruct t as [|b1 [|b2 [|b3 [|b4 t]]]]; cbn [String.length] in Hlen;
    rewrite ?append_cons; cbn [Py.chars_of]; rewrite <- Hlen; [done..|lia].
Qed.

Lemma upper_app (c r : string) :
  complete c = true → Py.upper (c ++ r) = Py.upper_char c ++ Py.upper r.
Proof. intros Hc. unfold Py.upper. by rewrite chars_of_app. Qed.

(** A string is empty, or starts with a whole character, or is the start of
    one, which upper-casing leaves alone. *)
Lemma chars_of_cases (s : string) :
  s = "" ∨
  (∃ c r, s = c ++ r ∧ complete c = true ∧
          (String.length r < String.length s)%nat) ∨
  (Py.chars_of s = [s] ∧ complete s = false).
Proof.
  destruct s as [|b0 r0]; [by left|]. right.
  pose proof (continuation_bytes_le b0) as Hle.
  destruct (Py.continuation_bytes b0) as [|[|[|[|k]]]] eqn:Hk; [| | | |lia].
  - left. exists (String b0 ""), r0. cbn. rewrite Hk. split_and!; [done..|lia].
  - destruct r0 as [|b1 r1].
    + right. cbn. by rewrite Hk.
    + left. exists (String b0 (String b1 "")), r1. cbn. rewrite Hk.
      split_and!; [done..|lia].
  - destruct r0 as [|b1 [|b2 r2]].
    + right. cbn. by rewrite Hk.
    + right. cbn. by rewrite Hk.
    + left. exists (String b0 (String b1 (String b2 ""))), r2. cbn.
      rewrite Hk. split_and!; [done..|lia].
  - destruct r0 as [|b1 [|b2 [|b3 r3]]].
    + right. cbn. by rewrite Hk.
    + right. cbn. by rewrite Hk.
    + right. cbn. by rewrite Hk.
    + left. exists (String b0 (String b1 (String b2 (String b3 "")))), r3.
      cbn. rewrite Hk. split_and!; [done..|lia].
Qed.

(** *** The table *)

Lemma table_lines : forallb line_ok Py.to_upper_full = true.
Proof. vm_compute. reflexivity. Qed.

Lemma table_line (cp : N) (ups : list N) :
  (cp, ups) ∈ Py.to_upper_full →
  (128 ≤ cp < 1114112)%N ∧
  (list_to_map Py.to_upper_full : gmap N (list N)) !! cp = Some ups ∧
  Py.upper_of_char !! Py.utf8 cp = Some (Py.encode ups) ∧
  Forall (λ up, complete (Py.utf8 up) = true ∧
                no_underscore (Py.utf8 up) = true ∧
                Py.upper_char (Py.utf8 up) = Py.utf8 up) ups.
Proof.
  intros Hin%list_elem_of_In.
  pose proof (proj1 (forallb_forall _ _) table_lines _ Hin) as Hok.
  unfold line_ok in Hok.
  apply andb_prop in Hok as [Hok Hups].
  apply andb_prop in Hok as [Hok Hchar].
  apply andb_prop in Hok as [Hcp Hmap].
  apply bool_decide_eq_true_1 in Hcp, Hmap, Hchar.
  split; [exact Hcp|]. split; [exact Hmap|]. split; [exact Hchar|].
  apply Forall_forall. intros up Hup%list_elem_of_In.
  pose proof (proj1 (forallb_forall _ _) Hups _ Hup) as Hu. cbv beta in Hu.
  apply andb_prop in Hu as [Hu Hfix].
  apply andb_prop in Hu as [Hwhole Hno].
  apply bool_decide_eq_true_1 in Hfix.
  split; [exact Hwhole|]. split; [exact Hno|exact Hfix].
Qed.

Lemma upper_of_char_Some (c up : string) :
  Py.upper_of_char !! c = Some up →
  ∃ cp ups, (cp, ups) ∈ Py.to_upper_full ∧ c = Py.utf8 cp ∧ up = Py.encode ups.
Proof.
  intros Hc. apply elem_of_list_to_map_2, list_elem_of_fmap in Hc
    as ([cp ups] & Heq & Hin).
  exists cp, ups. injection Heq as -> ->. auto.
Qed.

Lemma upper_of_char_None (cp : N) :
  valid_code_point cp →
  (list_to_map Py.to_upper_full : gmap N (list N)) !! cp = None →
  Py.upper_of_char !! Py.utf8 cp = None.
Proof.
  intros Hcp Hnone.
  destruct (Py.upper_of_char !! Py.utf8 cp) as [up|] eqn:Hup; [|done].
  apply upper_of_char_Some in Hup as (cp' & ups & Hin & Heq & _).
  apply table_line in Hin as ([_ Hcp'] & Hsome & _).
  apply utf8_inj in Heq; [|exact Hcp|exact Hcp'].
  rewrite Heq, Hsome in Hnone. discriminate Hnone.
Qed.

(** *** Upper-casing one character *)

Lemma upper_char_long (b0 b1 : ascii) (r : string) :
  Py.upper_char (String b0 (String b1 r))
  = default (String b0 (String b1 r))
      (Py.upper_of_char !! String b0 (String b1 r)).
Proof. reflexivity. Qed.

(** The uppercase of a whole character is made of whole characters, each its
    own uppercase. *)
Lemma upper_char_pieces (c : string) :
  complete c = true →
  ∃ pieces : list string,
    Py.upper_char c = Py.join pieces ∧
    Forall (λ d, complete d = true ∧ Py.upper_char d = d) pieces.
Proof.
  intros Hc. destruct c as [|b0 [|b1 r]]; [done| |].
  - exists [String (Py.ascii_upper b0) ""]. split; [done|].
    apply Forall_singleton. cbn [complete String.length] in *.
    rewrite ascii_upper_continuation_bytes. split; [exact Hc|].
    cbn [Py.upper_char]. by rewrite ascii_upper_idemp.
  - rewrite upper_char_long.
    destruct (Py.upper_of_char !! String b0 (String b1 r)) as [up|] eqn:Hup.
    + pose proof Hup as Hup'.
      apply upper_of_char_Some in Hup' as (cp & ups & Hin & _ & ->).
      apply table_line in Hin as (_ & _ & _ & Hups).
      exists (Py.utf8 <$> ups). split; [reflexivity|].
      apply Forall_fmap. eapply Forall_impl; [exact Hups|].
      intros up (Hwhole & _ & Hfix). split; [exact Hwhole|exact Hfix].
    + exists [String b0 (String b1 r)]. split.
      * cbn [from_option id]. rewrite join_cons. symmetry. apply append_nil_r.
      * apply Forall_singleton. split; [exact Hc|].
        rewrite upper_char_long, Hup. reflexivity.
Qed.

Lemma upper_char_no_underscore (c : string) :
  no_underscore (Py.upper_char c) = no_underscore c.
Proof.
  assert (∀ c, Py.upper_char c = default c (Py.upper_of_char !! c) →
               no_underscore (Py.upper_char c) = no_underscore c) as Hlong.
  { clear c. intros c ->.
    destruct (Py.upper_of_char !! c) as [up|] eqn:Hup; [|reflexivity].
    apply upper_of_char_Some in Hup as (cp & ups & Hin & -> & ->).
    apply table_line in Hin as ([Hlo Hhi] & _ & _ & Hups).
    cbn [from_option id]. rewrite utf8_no_underscore; [|exact Hhi|lia].
    unfold Py.encode. rewrite no_underscore_join.
    apply forallb_forall. intros d Hd%list_elem_of_In.
    apply list_elem_of_fmap in Hd as (up & -> & Hup).
    rewrite Forall_forall in Hups. by destruct (Hups up Hup) as (_ & ? & _). }
  destruct c as [|b0 [|b1 r]].
  - by apply Hlong.
  - cbn. by rewrite ascii_upper_underscore.
  - by apply Hlong.
Qed.

(** In the terms of code points. *)
Lemma upper_char_utf8 (cp : N) :
  valid_code_point cp → Py.upper_char (Py.utf8 cp) = Py.encode (to_upper cp).
Proof.
  intros Hcp. unfold to_upper. destruct (N.ltb_spec cp 128) as [Hlo|Hhi].
  - rewrite utf8_ascii by done. cbn [Py.upper_char].
    rewrite ascii_upper_code, N_ascii_embedding by lia. cbv zeta.
    unfold Py.encode. cbn [fmap list_fmap].
    rewrite join_cons, append_nil_r, utf8_ascii; [done|].
    destruct ((97 <=? cp)%N && (cp <=? 122)%N); lia.
  - destruct (utf8_long cp Hhi) as (b0 & b1 & r & Hlong).
    rewrite Hlong, upper_char_long, <- Hlong.
    destruct ((list_to_map Py.to_upper_full : gmap N (list N)) !! cp)
      as [ups|] eqn:Hups.
    + apply elem_of_list_to_map_2, table_line in Hups as (_ & _ & -> & _).
      reflexivity.
    + rewrite upper_of_char_None by done. cbn [from_option id].
      unfold Py.encode. cbn [fmap list_fmap]. rewrite join_cons.
      symmetry. apply append_nil_r.
Qed.

(** *** Upper-casing a string *)

Lemma upper_pieces (pieces : list string) (r : string) :
  Forall (λ d, complete d = true ∧ Py.upper_char d = d) pieces →
  Py.upper (Py.join pieces ++ r) = Py.join pieces ++ Py.upper r.
Proof.
  induction 1 as [|d pieces [Hwhole Hfix] _ IH]; [done|].
  by rewrite join_cons, !append_assoc, upper_app, Hfix, IH.
Qed.

Lemma upper_incomplete (s : string) :
  Py.chars_of s = [s] → complete s = false → Py.upper s = s.
Proof.
  intros Hs Hc. unfold Py.upper. rewrite Hs. cbn [fmap list_fmap].
  rewrite join_cons, append_nil_r. destruct s as [|b0 [|b1 r]].
  - done.
  - cbn [Py.upper_char]. rewrite ascii_upper_lead; [done|].
    cbn [complete String.length] in Hc. intros Hz. by rewrite Hz in Hc.
  - rewrite upper_char_long.
    destruct (Py.upper_of_char !! String b0 (String b1 r)) as [up|] eqn:Hup;
      [|reflexivity].
    apply upper_of_char_Some in Hup as (cp & ups & Hin & Heq & _).
    apply table_line in Hin as ([_ Hcp] & _).
    apply utf8_complete in Hcp. rewrite <- Heq in Hcp. congruence.
Qed.

Lemma upper_idemp (s : string) : Py.upper (Py.upper s) = Py.upper s.
Proof.
  remember (String.length s) as n eqn:Hn. revert s Hn.
  induction n as [n IH] using lt_wf_ind. intros s ->.
  destruct (chars_of_cases s) as [->|[(c & r & -> & Hc & Hlen)|[Hs Hc]]].
  - reflexivity.
  - rewrite upper_app by done.
    destruct (upper_char_pieces c Hc) as (pieces & -> & Hpieces).
    rewrite upper_pieces by done. f_equal. by eapply IH.
  - rewrite (upper_incomplete s Hs Hc). exact (upper_incomplete s Hs Hc).
Qed.

Lemma upper_no_underscore (s : string) :
  no_underscore (Py.upper s) = no_underscore s.
Proof.
  unfold Py.upper. rewrite no_underscore_join.
  remember (String.length s) as n eqn:Hn. revert s Hn.
  induction n as [n IH] using lt_wf_ind. intros s ->.
  destruct (chars_of_cases s) as [->|[(c & r & -> & Hc & Hlen)|[Hs Hc]]].
  - reflexivity.
  - rewrite chars_of_app by done. cbn [fmap list_fmap forallb].
    rewrite upper_char_no_underscore, no_underscore_app. f_equal.
    by eapply IH.
  - rewrite Hs. cbn [fmap list_fmap forallb].
    rewrite upper_char_no_underscore. apply andb_true_r.
Qed.

Lemma upper_encode (code_points : list N) :
  Forall valid_code_point code_points →
  Py.upper (Py.encode code_points) = Py.encode (code_points ≫= to_upper).
Proof.
  induction 1 as [|cp l Hcp _ IH]; [reflexivity|].
  rewrite encode_cons, upper_app by by apply utf8_complete.
  by rewrite upper_char_utf8, IH, bind_cons, encode_app.
Qed.

Lemma encode_no_underscore (code_points : list N) :
  Forall valid_code_point code_points → 95%N ∉ code_points →
  no_underscore (Py.encode code_points) = true.
Proof.
  induction 1 as [|cp l Hcp _ IH]; [reflexivity|]. intros Hnot.
  apply not_elem_of_cons in Hnot as [Hne Hnot].
  rewrite encode_cons, no_underscore_app, utf8_no_underscore by done.
  by apply IH.
Qed.

(** ** Ticker normalisation *)

Example encode_text :
  Py.encode [233; 95; 117; 115]%N = "é_us" ∧
  Py.encode [115; 116; 114; 97; 223; 101]%N = "straße" ∧
  Py.encode [8364; 128512]%N = "€😀" ∧
  Py.chars_of "é€😀_" = ["é"; "€"; "😀"; "_"].
Proof. by vm_compute. Qed.

Example upper_text :
  Py.upper "é_us" = "É_US" ∧
  Py.upper "straße" = "STRASSE" ∧
  Py.upper "ǆ ﬁ ΐ" = "Ǆ FI Ϊ́" ∧
  Py.upper "Ab1-€😀" = "AB1-€😀".
Proof. by vm_compute. Qed.

Example validate_ticker_AAPL :
  validate_ticker (PyStr "AAPL_US_EQ") = Ret "AAPL".
Proof. reflexivity. Qed.

Example validate_ticker_test1 :
  validate_ticker (PyStr "test1_US_EQ") = Ret "TEST1".
Proof. reflexivity. Qed.

Example validate_ticker_plain :
  validate_ticker (PyStr "msft") = Ret "MSFT".
Proof. reflexivity. Qed.

(** C2: for every raw ticker string, given by its code points, the
    normalised ticker is the upper-cased segment before the first underscore
    (code point 95): whenever the string is [h], an underscore and [t], with
    no underscore in [h], the result is made of the uppercase of each
    character of [h], in order; a string without any underscore is
    upper-cased whole.  The uppercase of a character is what [str.upper]
    makes of it: a..z becomes A..Z and the rest of ASCII stays, a character
    listed in the Unicode table gets the (one or several) characters of its
    line, and every other character stays. *)
Theorem validate_ticker_spec (raw : list N) :
  Forall valid_code_point raw →
  (∀ h t : list N,
     raw = (h ++ 95%N :: t)%list → 95%N ∉ h →
     validate_ticker (PyStr (Py.encode raw))
     = Ret (Py.encode (h ≫= to_upper))) ∧
  (95%N ∉ raw →
     validate_ticker (PyStr (Py.encode raw))
     = Ret (Py.encode (raw ≫= to_upper))) ∧
  (∀ cp : N,
     (cp < 128)%N →
     to_upper cp
     = [if (97 <=? cp)%N && (cp <=? 122)%N then (cp - 32)%N else cp]) ∧
  (∀ (cp : N) (ups : list N),
     (cp, ups) ∈ Py.to_upper_full → to_upper cp = ups) ∧
  (∀ cp : N,
     (128 ≤ cp)%N → cp ∉ Py.to_upper_full.*1 → to_upper cp = [cp]).
Proof.
  intros Hvalid. split_and!.
  - intros h t -> Hnot. pose proof Hvalid as [Hh _]%Forall_app.
    rewrite encode_app, encode_cons.
    change (Py.utf8 95 ++ Py.encode t) with (String "_" (Py.encode t)).
    unfold validate_ticker.
    rewrite partition_first_underscore
      by by apply no_underscore_free, encode_no_underscore.
    by rewrite upper_encode.
  - intros Hnot. unfold validate_ticker.
    rewrite partition_no_underscore
      by by apply no_underscore_free, encode_no_underscore.
    by rewrite upper_encode.
  - intros cp Hcp. unfold to_upper. by destruct (N.ltb_spec cp 128); [|lia].
  - intros cp ups Hin. apply table_line in Hin as ([Hcp _] & Hups & _).
    unfold to_upper. destruct (N.ltb_spec cp 128); [lia|].
    rewrite Hups. reflexivity.
  - intros cp Hcp Hnot. unfold to_upper.
    destruct (N.ltb_spec cp 128); [lia|].
    rewrite (not_elem_of_list_to_map_1 _ _ Hnot). reflexivity.
Qed.

Lemma validate_ticker_spec_witness :
  validate_ticker (PyStr "test1_US_EQ") = Ret "TEST1" ∧
  validate_ticker (PyStr "msft") = Ret "MSFT" ∧
  validate_ticker (PyStr "é_us") = Ret "É" ∧
  validate_ticker (PyStr "straße") = Ret "STRASSE".
Proof.
  split_and!.
  - apply (proj1 (validate_ticker_spec
                    [116; 101; 115; 116; 49; 95; 85; 83; 95; 69; 81]%N
                    ltac:(by repeat constructor))
             [116; 101; 115; 116; 49]%N [85; 83; 95; 69; 81]%N).
    + reflexivity.
    + compute_done.
  - apply (proj1 (proj2 (validate_ticker_spec [109; 115; 102; 116]%N
                           ltac:(by repeat constructor)))).
    compute_done.
  - apply (proj1 (validate_ticker_spec [233; 95; 117; 115]%N
                    ltac:(by repeat constructor))
             [233]%N [117; 115]%N).
    + reflexivity.
    + compute_done.
  - apply (proj1 (proj2 (validate_ticker_spec
                           [115; 116; 114; 97; 223; 101]%N
                           ltac:(by repeat constructor)))).
    compute_done.
Defined.

(** ** The derived value and the shape of a point *)

Lemma vap_VOk_inv {A B} (rf : vresult (A → B)) (ra : vresult A) (b : B) :
  vap rf ra = VOk b → ∃ f a, rf = VOk f ∧ ra = VOk a ∧ b = f a.
Proof.
  destruct rf as [f| |], ra as [a| |]; cbn; intros H; try discriminate.
  inversion H. by exists f, a.
Qed.

Lemma field_insert_ne {A} (d : gmap string pyval) (k : string) (v : pyval)
    (name : string) (explicit : option string) (validator : pyval → vresult A) :
  k ≠ alias_of name explicit → k ≠ name →
  field (<[k := v]> d) name explicit validator = field d name explicit validator.
Proof.
  intros Ha Hn. unfold field, lookup_field.
  by rewrite !lookup_insert_ne.
Qed.

Lemma validate_position_ignores (L : LaxCoercions) (d : gmap string pyval)
    (k : string) (v : pyval) :
  k ∉ [ "ticker"; "quantity"; "average_price"; "averagePrice";
        "current_price"; "currentPrice"; "profit"; "ppl";
        "forex_movement_impact"; "fxPpl"; "initial_fill_date";
        "initialFillDate"; "frontend"; "max_buy"; "maxBuy"; "max_sell";
        "maxSell"; "pie_quantity"; "pieQuantity" ] →
  validate_position L (PyDict (<[k := v]> d)) = validate_position L (PyDict d).
Proof.
  intros Hk. unfold validate_position.
  rewrite !field_insert_ne; first done.
  all: intros ->; apply Hk; compute_done.
Qed.

Example test_position_current_value :
  current_value Fixtures.test_position = 25%float.
Proof. reflexivity. Qed.

Example TEST1_current_value :
  current_value Fixtures.TEST1_position = (56.73 * 0.168629)%float.
Proof. reflexivity. Qed.

(** C3: [current_value] is [current_price * quantity]; it is a function of
    these two fields alone; a value supplied for it in the raw record (under
    its name or its camel-case alias) is not part of what is validated; it
    cannot be assigned; and after [quantity] is assigned it is the product
    with the new quantity, so nothing is cached. *)
Theorem current_value_derived (L : LaxCoercions) (self : Position) :
  current_value self = (current_price self * quantity self)%float ∧
  (∀ other : Position,
     current_price other = current_price self →
     quantity other = quantity self →
     current_value other = current_value self) ∧
  (∀ (d : gmap string pyval) (v : pyval),
     validate_position L (PyDict (<["current_value" := v]> d))
       = validate_position L (PyDict d) ∧
     validate_position L (PyDict (<["currentValue" := v]> d))
       = validate_position L (PyDict d)) ∧
  (∀ v : pyval, ∃ e, setattr self "current_value" v = Refused e) ∧
  (∀ q : float, ∃ self',
     setattr self "quantity" (PyFloat q) = Assigned self' ∧
     current_value self' = (current_price self * q)%float).
Proof.
  repeat split.
  - intros other Hp Hq. unfold current_value. congruence.
  - apply validate_position_ignores. compute_done.
  - apply validate_position_ignores. compute_done.
  - intros v. destruct self. by eexists.
  - intros q. destruct self. by eexists.
Qed.

Lemma current_value_derived_witness :
  current_value (with_ticker Fixtures.test_position "OTHER")
    = current_value Fixtures.test_position.
Proof.
  apply (proj1 (proj2 (current_value_derived Fixtures.lax Fixtures.test_position)));
    reflexivity.
Defined.

Example test_position_to_point :
  ∃ s, to_point Fixtures.test_position None
         (Fixtures.world_with (GetRaises ConnectError)) initial
       = (Ret (build_point Fixtures.test_position Fixtures.DEFAULT_TIME), s).
Proof. by eexists. Qed.

(** C7: the point built from a position has measurement "stock_price", the
    single tag [ticker], and exactly the six fields; each field holds the
    position's value; a null [forex_movement_impact] is the field's value
    [None], not zero, and the call returns in every case.  The timestamp is
    the one supplied, or the clock's reading when none is. *)
Theorem to_point_shape (self : Position) (time : option datetime)
    (w : World) (s : State) :
  ∃ (pt : Point) (s' : State),
    to_point self time w s = (Ret pt, s') ∧
    point_name pt = "stock_price" ∧
    point_tags pt = {[ "ticker" := PyStr (ticker self) ]} ∧
    dom (point_fields pt) = point_field_names ∧
    point_fields pt !! "current_price" = Some (PyFloat (current_price self)) ∧
    point_fields pt !! "average_price" = Some (PyFloat (average_price self)) ∧
    point_fields pt !! "quantity" = Some (PyFloat (quantity self)) ∧
    point_fields pt !! "profit" = Some (PyFloat (profit self)) ∧
    point_fields pt !! "current_value" = Some (PyFloat (current_value self)) ∧
    point_fields pt !! "forex_movement_impact"
      = Some (of_opt_float (forex_movement_impact self)) ∧
    (forex_movement_impact self = None →
       point_fields pt !! "forex_movement_impact" = Some PyNone ∧
       point_fields pt !! "forex_movement_impact" ≠ Some (PyFloat 0)) ∧
    point_time pt
      = Some (match time with
              | Some t => t
              | None => clock w (clock_reads s)
              end).
Proof.
  destruct time as [t|]; do 2 eexists; (split; [reflexivity|]); cbn.
  all: repeat split; try done.
  all: try (unfold point_field_names; rewrite !dom_insert_L, dom_empty_L;
            set_solver).
  all: match goal with
       | Hnull : forex_movement_impact _ = None |- _ => by rewrite Hnull
       end.
Qed.

Lemma to_point_shape_witness :
  ∃ s, to_point (with_forex_movement_impact Fixtures.test_position None)
         (Some Fixtures.DEFAULT_TIME)
         (Fixtures.world_with (GetRaises ConnectError)) initial
       = (Ret (build_point
                 (with_forex_movement_impact Fixtures.test_position None)
                 Fixtures.DEFAULT_TIME), s) ∧
    point_fields
      (build_point (with_forex_movement_impact Fixtures.test_position None)
         Fixtures.DEFAULT_TIME) !! "forex_movement_impact" = Some PyNone.
Proof.
  destruct (to_point_shape
              (with_forex_movement_impact Fixtures.test_position None)
              (Some Fixtures.DEFAULT_TIME)
              (Fixtures.world_with (GetRaises ConnectError)) initial)
    as (pt & s' & Hrun & _ & _ & _ & _ & _ & _ & _ & _ & _ & Hnull & _).
  exists s'. cbn in Hrun. inversion Hrun; subst pt.
  split; [reflexivity|]. apply Hnull. reflexivity.
Defined.

(** ** Validation of raw records *)

Example to_camel_aliases :
  to_camel <$> [ "ticker"; "quantity"; "average_price"; "current_price";
                 "initial_fill_date"; "frontend"; "max_buy"; "max_sell";
                 "pie_quantity" ]
  = [ "ticker"; "quantity"; "averagePrice"; "currentPrice";
      "initialFillDate"; "frontend"; "maxBuy"; "maxSell"; "pieQuantity" ].
Proof. reflexivity. Qed.

Example validate_TEST1 :
  validate_position Fixtures.lax (PyDict Fixtures.TEST1)
  = VOk Fixtures.TEST1_position.
Proof. vm_compute. reflexivity. Qed.

Example validate_by_name :
  validate_position Fixtures.lax (PyDict Fixtures.DEFAULT_SCHEMA_INIT_ARGS)
  = VOk Fixtures.test_position.
Proof. vm_compute. reflexivity. Qed.

Example validate_null_fxPpl :
  validate_position Fixtures.lax (PyDict Fixtures.TEST1_null_fxPpl)
  = VOk (with_forex_movement_impact Fixtures.TEST1_position None).
Proof. vm_compute. reflexivity. Qed.

(** Inversion of a chain of [vap]s that ended in [VOk]. *)
Ltac vap_inv H :=
  repeat
    (let f := fresh "f" in
     let a := fresh "a" in
     let Ha := fresh "Hfield" in
     apply vap_VOk_inv in H as (f & a & H & Ha & ->));
  inversion H; subst; clear H.

Lemma reports_vap_l {A B} (e : line_error) (rf : vresult (A → B))
    (ra : vresult A) :
  reports e rf → reports e (vap rf ra).
Proof.
  destruct rf as [f|es|x], ra as [a|es'|x']; cbn; try done.
  intros He. apply elem_of_app. by left.
Qed.

Lemma reports_vap_r {A B} (e : line_error) (rf : vresult (A → B))
    (ra : vresult A) :
  reports e ra → reports e (vap rf ra).
Proof.
  destruct rf as [f|es|x], ra as [a|es'|x']; cbn; try done.
  intros He. apply elem_of_app. by right.
Qed.




Lemma vap_VRaise_inv {A B} (rf : vresult (A → B)) (ra : vresult A) :
  is_VRaise (vap rf ra) = true → is_VRaise rf = true ∨ is_VRaise ra = true.
Proof. destruct rf, ra; cbn; auto. Qed.

Lemma no_raise_with_loc {A} (k : loc_item) (r : vresult A) :
  is_VRaise (with_loc k r) = is_VRaise r.
Proof. by destruct r. Qed.

Lemma no_raise_field {A} (d : gmap string pyval) (name : string)
    (explicit : option string) (validator : pyval → vresult A) :
  (∀ v, is_VRaise (validator v) = false) →
  is_VRaise (field d name explicit validator) = false.
Proof.
  intros Hv. unfold field. destruct (lookup_field _ _ _) as [[k v]|]; [|done].
  by rewrite no_raise_with_loc.
Qed.

Lemma no_raise_leaf {A} (ty : error_type) (o : option A) :
  is_VRaise (leaf ty o) = false.
Proof. by destruct o. Qed.

Lemma no_raise_nullable_float (L : LaxCoercions) (v : pyval) :
  is_VRaise (nullable (float_field L) v) = false.
Proof.
  unfold nullable, float_field.
  destruct v; try done; by destruct (validate_float _ _).
Qed.

(** Only the ticker validator lets an exception escape, and only on a
    ticker that is present and not a str. *)
Lemma validate_position_raise_inv (L : LaxCoercions) (raw : pyval) :
  is_VRaise (validate_position L raw) = true →
  ∃ (d : gmap string pyval) (v : pyval),
    raw = PyDict d ∧ d !! "ticker" = Some v ∧ ∀ s, v ≠ PyStr s.
Proof.
  destruct raw as [| | | | | | |d]; try done. unfold validate_position.
  intros H.
  repeat (apply vap_VRaise_inv in H as [H|H];
          [|rewrite no_raise_field in H;
            [done|intros; first [apply no_raise_leaf
                                |apply no_raise_nullable_float]]]).
  apply vap_VRaise_inv in H as [H|H]; [done|].
  unfold field, lookup_field in H.
  change (alias_of "ticker" None) with "ticker" in H.
  destruct (d !! "ticker") as [v|] eqn:Hv; [|done].
  rewrite no_raise_with_loc in H.
  exists d, v. repeat split; [done|].
  intros s ->. unfold ticker_field in H. cbn in H.
  by destruct (Py.partition s "_") as [[? ?] ?].
Qed.




Example validate_ticker_leading_underscore :
  validate_ticker (PyStr "_US_EQ") = Ret "".
Proof. reflexivity. Qed.

(** C10: a raw ticker that begins with an underscore is normalised to the
    empty string; a record with such a ticker validates whenever it would
    with another ticker string, its ticker is then empty, and the point built
    from it carries the empty string as its ticker tag. *)
Theorem underscore_led_ticker (L : LaxCoercions) (d : gmap string pyval)
    (rest other : string) (p0 : Position) :
  d !! "ticker" = Some (PyStr (String "_" rest)) →
  validate_position L (PyDict (<["ticker" := PyStr other]> d)) = VOk p0 →
  validate_ticker (PyStr (String "_" rest)) = Ret "" ∧
  validate_position L (PyDict d) = VOk (with_ticker p0 "") ∧
  ∀ (time : option datetime) (w : World) (s : State),
    ∃ (pt : Point) (s' : State),
      to_point (with_ticker p0 "") time w s = (Ret pt, s') ∧
      point_tags pt = {[ "ticker" := PyStr "" ]}.
Proof.
  intros Hd Hp0.
  assert (validate_ticker (PyStr (String "_" rest)) = Ret "") as Hnorm.
  { unfold validate_ticker. cbn. by destruct rest. }
  split; [done|]. split.
  - unfold validate_position in *.
    assert (field d "ticker" None ticker_field = VOk "") as ->.
    { unfold field, lookup_field.
      change (alias_of "ticker" None) with "ticker". rewrite Hd.
      unfold ticker_field. by rewrite Hnorm. }
    vap_inv Hp0.
    repeat match goal with Hf : field _ _ _ _ = VOk _ |- _ =>
      try (rewrite field_insert_ne in Hf by done; rewrite Hf); clear Hf end.
    reflexivity.
  - intros [t|] w s; do 2 eexists; (split; [reflexivity|]); done.
Qed.

Lemma underscore_led_ticker_witness :
  validate_position Fixtures.lax
    (PyDict (<["ticker" := PyStr "_US_EQ"]> Fixtures.TEST1))
  = VOk (with_ticker Fixtures.TEST1_position "").
Proof.
  apply (underscore_led_ticker Fixtures.lax
           (<["ticker" := PyStr "_US_EQ"]> Fixtures.TEST1)
           "US_EQ" "TEST1_US_EQ" Fixtures.TEST1_position).
  - vm_compute. reflexivity.
  - vm_compute. reflexivity.
Defined.

(** ** One bad record fails the whole batch *)

Lemma names_an_error_vap {A B} (rf : vresult (A → B)) (ra : vresult A) :
  names_an_error rf → names_an_error ra → names_an_error (vap rf ra).
Proof.
  destruct rf as [f|[|e1 es1]|x], ra as [a|[|e2 es2]|x']; cbn; auto.
Qed.

Lemma names_an_error_with_loc {A} (k : loc_item) (r : vresult A) :
  names_an_error r → names_an_error (with_loc k r).
Proof. by destruct r as [a|[|e es]|x]. Qed.

Lemma names_an_error_leaf {A} (ty : error_type) (o : option A) :
  names_an_error (leaf ty o).
Proof. by destruct o. Qed.

Lemma names_an_error_field {A} (d : gmap string pyval) (name : string)
    (explicit : option string) (validator : pyval → vresult A) :
  (∀ v, names_an_error (validator v)) →
  names_an_error (field d name explicit validator).
Proof.
  intros Hv. unfold field. destruct (lookup_field _ _ _) as [[k v]|]; [|done].
  by apply names_an_error_with_loc.
Qed.

Lemma names_an_error_nullable {A} (validator : pyval → vresult A) (v : pyval) :
  names_an_error (validator v) → names_an_error (nullable validator v).
Proof.
  unfold nullable.
  destruct v; try done; by destruct (validator _) as [a|[|e es]|x].
Qed.

Lemma names_an_error_ticker_field (v : pyval) :
  names_an_error (ticker_field v).
Proof. unfold ticker_field. by destruct (validate_ticker v). Qed.

Lemma validate_position_names_an_error (L : LaxCoercions) (raw : pyval) :
  names_an_error (validate_position L raw).
Proof.
  destruct raw; try done. unfold validate_position.
  repeat apply names_an_error_vap; try done;
    apply names_an_error_field; intros v;
    first [ apply names_an_error_ticker_field
          | apply names_an_error_nullable; apply names_an_error_leaf
          | apply names_an_error_leaf ].
Qed.

Lemma validate_items_no_raise (L : LaxCoercions) (items : list pyval) (i : nat) :
  str_tickers items → is_VRaise (validate_items L i items) = false.
Proof.
  revert i. induction items as [|item rest IH]; intros i Hstr; [done|].
  cbn [validate_items].
  destruct (is_VRaise (validate_position L item)) eqn:Hitem.
  - apply validate_position_raise_inv in Hitem as (d & v & -> & Hv & Hne).
    destruct (Hstr d v) as [s ->]; [set_solver|done|]. by destruct (Hne s).
  - assert (is_VRaise (validate_items L (S i) rest) = false) as Hrest.
    { apply IH. intros d v Hd. apply Hstr. set_solver. }
    destruct (validate_position L item), (validate_items L (S i) rest); done.
Qed.

Lemma validate_items_rejects (L : LaxCoercions) (items : list pyval) :
  ∀ (i j : nat) (item : pyval),
    items !! j = Some item →
    is_VOk (validate_position L item) = false →
    is_VOk (validate_items L i items) = false ∧
    (is_VRaise (validate_items L i items) = false →
     ∃ errors e,
       validate_items L i items = VErrors errors ∧
       e ∈ errors ∧ located_at (i + j) e).
Proof.
  induction items as [|x rest IH]; intros i j item Hj Hbad; [done|].
  cbn [validate_items]. destruct j as [|j]; cbn in Hj.
  - inversion Hj; subst x.
    pose proof (validate_position_names_an_error L item) as Hname.
    destruct (validate_position L item) as [p|[|e es]|exn]; try done.
    split; [by destruct (validate_items L (S i) rest)|].
    intros Hraise.
    destruct (validate_items L (S i) rest) as [ps|es'|exn]; try done;
      eexists _, (at_loc (LocIndex i) e); (split; [reflexivity|]);
      (split; [try (apply elem_of_app; left);
               apply list_elem_of_fmap_2; by left|]);
      exists (err_loc e); cbn; by rewrite Nat.add_0_r.
  - destruct (IH (S i) j item Hj Hbad) as [Hnot Herr].
    split.
    { destruct (validate_position L x),
        (validate_items L (S i) rest); done. }
    intros Hraise.
    destruct (validate_items L (S i) rest) as [ps|es'|exn] eqn:Hrest;
      [done| |by destruct (validate_position L x)].
    destruct Herr as (errors & e & Heq & He & Hloc); [done|].
    inversion Heq; subst errors.
    replace (i + S j) with (S i + j) by lia.
    destruct (validate_position L x) as [p|es|exn'] eqn:Hx; cbn in *;
      [| |done]; eexists _, e; (split; [reflexivity|]);
      (split; [rewrite ?elem_of_app; auto|done]).
Qed.

Example batch_with_one_bad_record :
  validate_python Fixtures.lax
    (PyList [PyDict Fixtures.TEST1; PyDict Fixtures.TEST1_without_fxPpl])
  = VErrors
      [ {| err_type := missing; err_loc := [LocIndex 1; LocKey "fxPpl"] |} ].
Proof. vm_compute. reflexivity. Qed.

(** C8, at a record of the wrong type: when a ticker is a number, the
    ticker validator's [AttributeError] escapes the validation; the batch
    fails with it, not with a validation error naming the record, also when
    an earlier record has a missing field. *)
Theorem non_string_ticker_escapes :
  validate_python Fixtures.lax (PyList [PyDict Fixtures.TEST1_numeric_ticker])
  = VRaise (new_exn (AttributeError "partition")) ∧
  validate_python Fixtures.lax
    (PyList [PyDict Fixtures.TEST1_without_fxPpl;
             PyDict Fixtures.TEST1_numeric_ticker])
  = VRaise (new_exn (AttributeError "partition")) ∧
  fst (get_open_positions Fixtures.lax
         (Fixtures.world_with
            (GetReturns
               {| status_code := 200;
                  json := Some (PyList [PyDict Fixtures.TEST1_numeric_ticker])
               |}))
         initial)
  = Raise (new_exn (AttributeError "partition")).
Proof. vm_compute. done. Qed.

(** ** Runs of the client and of the program *)

(** Unfolding of the monad's combinators and of the client's small steps. *)
Ltac unfold_run :=
  cbv [get_open_positions main push_data_to_influxdb get_t212_client
       try_except_HTTPError try_finally Client_get Client_new Client_close
       raise_for_status read_response assign_response emit ask now bind ret
       raise initial].

Ltac case_world w :=
  let cls := fresh "cls" in
  let r := fresh "r" in
  let Hget := fresh "Hget" in
  unfold_run; destruct (http_get w) as [cls|r] eqn:Hget; cbn;
  [ destruct (is_HTTPError cls) eqn:?; cbn
  | destruct ((200 <=? status_code r)%Z && (status_code r <=? 299)%Z) eqn:?;
    cbn;
    [ destruct (json r) as [data|] eqn:?; cbn | ] ].

(** C9: a call creates one client and closes it, once, right after the GET,
    whatever the GET does (it raises, it answers with any status) and
    whatever happens afterwards. *)
Theorem get_open_positions_closes_client (L : LaxCoercions) (w : World) :
  let evs := events (snd (get_open_positions L w initial)) in
  count is_created evs = 1 ∧
  count is_closed evs = 1 ∧
  ∃ rest,
    evs = ClientCreated (t212_api_key (settings w))
            :: HttpGet (t212_url (settings w)) (t212_api_key (settings w))
            :: ClientClosed :: rest ∧
    count is_created rest = 0 ∧
    count is_closed rest = 0 ∧
    count is_get rest = 0.
Proof.
  case_world w.
  all: try match goal with
           | |- context [validate_python ?L0 ?d] =>
               destruct (validate_python L0 d); cbn
           end.
  all: repeat split; try reflexivity; eexists; repeat split; reflexivity.
Qed.

Lemma get_open_positions_no_write (L : LaxCoercions) (w : World) :
  count is_write (events (snd (get_open_positions L w initial))) = 0 ∧
  clock_reads (snd (get_open_positions L w initial)) = 0.
Proof.
  case_world w.
  all: try match goal with
           | |- context [validate_python ?L0 ?d] =>
               destruct (validate_python L0 d); cbn
           end.
  all: by split.
Qed.

Lemma main_stops_when_fetch_raises (L : LaxCoercions) (w : World)
    (e : exn) (s : State) :
  get_open_positions L w initial = (Raise e, s) →
  main L w initial = (Raise e, s).
Proof. intros H. unfold main, bind. by rewrite H. Qed.

Lemma for_each_to_point (t : datetime) (positions : list Position)
    (w : World) (s : State) :
  for_each (λ position, to_point position (Some t)) positions w s
  = (Ret ((λ position, build_point position t) <$> positions), s).
Proof.
  induction positions as [|p ps IH]; [done|].
  cbn [for_each]. unfold bind at 1. cbn.
  unfold bind at 1. by rewrite IH.
Qed.

Lemma main_after_fetch (L : LaxCoercions) (w : World)
    (positions : list Position) (s1 : State) :
  get_open_positions L w initial = (Ret positions, s1) →
  main L w initial
  = push_data_to_influxdb
      ((λ position, build_point position (clock w (clock_reads s1)))
         <$> positions)
      (stocks_bucket_name (settings w)) w
      {| events := events s1; clock_reads := S (clock_reads s1);
         response_var := response_var s1 |}.
Proof.
  intros H. unfold main. unfold bind at 1. rewrite H.
  unfold bind at 1. cbn. unfold bind at 1. by rewrite for_each_to_point.
Qed.

Lemma count_elem (p : event → bool) (ev : event) (evs : list event) :
  ev ∈ evs → p ev = true → count p evs ≠ 0.
Proof.
  induction 1 as [x l|x y l Hin IH]; intros Hp; cbn.
  - by rewrite Hp.
  - destruct (p y); [done|]. by apply IH.
Qed.

Lemma push_data_events (points : list Point) (bucket : string) (w : World)
    (s : State) :
  ∃ rest,
    events (snd (push_data_to_influxdb points bucket w s))
    = (events s
         ++ InfluxClientCreated (influxdb_url (settings w))
              (influxdb_token (settings w)) (influxdb_org (settings w))
         :: InfluxWrite bucket (influxdb_org (settings w)) points
         :: rest)%list ∧
    count is_write rest = 0 ∧
    clock_reads (snd (push_data_to_influxdb points bucket w s))
    = clock_reads s.
Proof.
  unfold push_data_to_influxdb, bind, emit, ask, ret, raise. cbn.
  destruct (influx_write w); cbn; eexists;
    rewrite <- !app_assoc; cbn; done.
Qed.

(** C4: in every run that fetches a batch of positions, the clock is read
    once; every [to_point] call is passed that reading; the run writes the
    resulting points, one per position and in order; and all of them carry
    that same timestamp.  The run makes no other write. *)
Theorem main_shares_one_timestamp (L : LaxCoercions) (w : World)
    (positions : list Position) :
  fst (get_open_positions L w initial) = Ret positions →
  ∃ (timestamp : datetime) (points : list Point),
    timestamp = clock w 0 ∧
    clock_reads (snd (main L w initial)) = 1 ∧
    (∀ s, for_each (λ position, to_point position (Some timestamp))
            positions w s = (Ret points, s)) ∧
    InfluxWrite (stocks_bucket_name (settings w)) (influxdb_org (settings w))
      points ∈ events (snd (main L w initial)) ∧
    (∀ bucket org record,
       InfluxWrite bucket org record ∈ events (snd (main L w initial)) →
       record = points) ∧
    length points = length positions ∧
    Forall (λ pt, point_time pt = Some timestamp) points.
Proof.
  intros Hfetch.
  destruct (get_open_positions_no_write L w) as [Hnw Hclock].
  destruct (get_open_positions L w initial) as [r s1] eqn:Hrun.
  cbn in Hfetch, Hnw, Hclock. subst r.
  rewrite (main_after_fetch L w positions s1 Hrun), Hclock.
  exists (clock w 0),
    ((λ position, build_point position (clock w 0)) <$> positions).
  destruct (push_data_events
              ((λ position, build_point position (clock w 0)) <$> positions)
              (stocks_bucket_name (settings w)) w
              {| events := events s1; clock_reads := 1;
                 response_var := response_var s1 |})
    as (rest & -> & Hrest & ->).
  cbn. repeat split.
  - intros s. apply for_each_to_point.
  - rewrite elem_of_app, !elem_of_cons. auto.
  - intros bucket org record.
    rewrite elem_of_app, !elem_of_cons. intros [Hin|[Hin|[Hin|Hin]]].
    + by apply (count_elem is_write) in Hin.
    + discriminate.
    + by inversion Hin.
    + by apply (count_elem is_write) in Hin.
  - by rewrite length_fmap.
  - apply Forall_fmap, Forall_forall. by intros p _.
Qed.

Example test_get_open_positions :
  fst (get_open_positions Fixtures.lax
         (Fixtures.world_with (GetReturns Fixtures.DEFAULT_RESPONSE)) initial)
  = Ret [Fixtures.TEST1_position; Fixtures.TEST2_position].
Proof. vm_compute. reflexivity. Qed.

Lemma main_shares_one_timestamp_witness :
  ∃ (timestamp : datetime) (points : list Point),
    timestamp = Fixtures.DEFAULT_TIME ∧
    InfluxWrite "stocks" "org" points
      ∈ events (snd (main Fixtures.lax
                       (Fixtures.world_with
                          (GetReturns Fixtures.DEFAULT_RESPONSE)) initial)) ∧
    length points = 2 ∧
    Forall (λ pt, point_time pt = Some timestamp) points.
Proof.
  destruct (main_shares_one_timestamp Fixtures.lax
              (Fixtures.world_with (GetReturns Fixtures.DEFAULT_RESPONSE))
              [Fixtures.TEST1_position; Fixtures.TEST2_position])
    as (timestamp & points & Ht & _ & _ & Hin & _ & Hlen & Hall).
  - vm_compute. reflexivity.
  - exists timestamp, points. repeat split; assumption.
Defined.

(** ** Failures of the fetch *)

(** C1, at a transport failure: when the GET itself raises an [HTTPError]
    the local [response] was never assigned, so the handler's log message
    fails on reading it.  What leaves [get_open_positions] is an
    [UnboundLocalError] without a cause (the connection error is only its
    context), and no [APICallFailedException]; nothing is logged and nothing
    is written. *)
Theorem transport_failure_unbound_response :
  get_open_positions Fixtures.lax
    (Fixtures.world_with (GetRaises ConnectError)) initial
  = (Raise (Exn (UnboundLocalError "response") None
              (Some (new_exn ConnectError))),
     {| events := [ ClientCreated "key";
                    HttpGet "https://t212.test/positions" "key";
                    ClientClosed ];
        clock_reads := 0;
        response_var := None |}) ∧
  fst (main Fixtures.lax (Fixtures.world_with (GetRaises ConnectError))
         initial)
  = Raise (Exn (UnboundLocalError "response") None
             (Some (new_exn ConnectError))) ∧
  count is_write
    (events (snd (main Fixtures.lax
                    (Fixtures.world_with (GetRaises ConnectError)) initial)))
  = 0.
Proof. vm_compute. done. Qed.

(** The same holds for every [HTTPError] the GET may raise; an exception
    that is not an [HTTPError] passes through unchanged. *)
Lemma get_raises (L : LaxCoercions) (w : World) (cls : exn_class) :
  http_get w = GetRaises cls →
  fst (get_open_positions L w initial)
  = if is_HTTPError cls
    then Raise (Exn (UnboundLocalError "response") None (Some (new_exn cls)))
    else Raise (new_exn cls).
Proof.
  intros Hget. unfold_run. rewrite Hget. cbn.
  by destruct (is_HTTPError cls).
Qed.

Example test_get_open_positions_failed :
  fst (get_open_positions Fixtures.lax
         (Fixtures.world_with (GetReturns Fixtures.FAILED_RESPONSE)) initial)
  = Raise (Exn APICallFailedException
             (Some (new_exn (HTTPStatusError 400)))
             (Some (new_exn (HTTPStatusError 400)))).
Proof. vm_compute. reflexivity. Qed.

(** A response outside 2xx: [get_open_positions] raises
    [APICallFailedException] with the [HTTPStatusError] as its cause, after
    logging the status, and the run ends there, without a write. *)
Theorem non_2xx_raises_APICallFailed (L : LaxCoercions) (w : World)
    (r : Response) :
  http_get w = GetReturns r →
  (status_code r < 200 ∨ 299 < status_code r)%Z →
  let exc := new_exn (HTTPStatusError (status_code r)) in
  let failure := Exn APICallFailedException (Some exc) (Some exc) in
  fst (get_open_positions L w initial) = Raise failure ∧
  LogError (status_code r) exc
    ∈ events (snd (get_open_positions L w initial)) ∧
  fst (main L w initial) = Raise failure ∧
  count is_write (events (snd (main L w initial))) = 0.
Proof.
  intros Hget Hstatus exc failure.
  assert (get_open_positions L w initial
          = (Raise failure,
             {| events := [ ClientCreated (t212_api_key (settings w));
                            HttpGet (t212_url (settings w))
                              (t212_api_key (settings w));
                            ClientClosed;
                            LogError (status_code r) exc ];
                clock_reads := 0;
                response_var := Some r |})) as Hrun.
  { unfold_run. rewrite Hget. cbn.
    assert ((200 <=? status_code r)%Z && (status_code r <=? 299)%Z = false)
      as -> by lia.
    reflexivity. }
  rewrite (main_stops_when_fetch_raises L w _ _ Hrun), Hrun. cbn.
  repeat split. apply (list_elem_of_lookup_2 _ 3). reflexivity.
Qed.

Lemma non_2xx_raises_APICallFailed_witness :
  fst (get_open_positions Fixtures.lax
         (Fixtures.world_with (GetReturns Fixtures.FAILED_RESPONSE)) initial)
  = Raise (Exn APICallFailedException
             (Some (new_exn (HTTPStatusError 400)))
             (Some (new_exn (HTTPStatusError 400)))) ∧
  count is_write
    (events (snd (main Fixtures.lax
                    (Fixtures.world_with
                       (GetReturns Fixtures.FAILED_RESPONSE)) initial))) = 0.
Proof.
  destruct (non_2xx_raises_APICallFailed Fixtures.lax
              (Fixtures.world_with (GetReturns Fixtures.FAILED_RESPONSE))
              Fixtures.FAILED_RESPONSE)
    as (Hfetch & _ & _ & Hwrite).
  - reflexivity.
  - right. reflexivity.
  - split; [exact Hfetch | exact Hwrite].
Defined.

(** A record that does not validate fails the whole batch: no list of
    positions is returned, whatever the other records are; the fetch raises
    and the run writes nothing.  When every ticker present is a str, what is
    raised is a validation error with a line error located at that record. *)
Theorem invalid_record_fails_batch (L : LaxCoercions) (w : World)
    (r : Response) (items : list pyval) (j : nat) (item : pyval) :
  http_get w = GetReturns r →
  (200 ≤ status_code r ≤ 299)%Z →
  json r = Some (PyList items) →
  items !! j = Some item →
  is_VOk (validate_position L item) = false →
  is_VOk (validate_python L (PyList items)) = false ∧
  (∃ e, fst (get_open_positions L w initial) = Raise e ∧
        fst (main L w initial) = Raise e) ∧
  count is_write (events (snd (main L w initial))) = 0 ∧
  (str_tickers items →
   ∃ errors e,
     validate_python L (PyList items) = VErrors errors ∧
     fst (get_open_positions L w initial)
       = Raise (new_exn (ValidationError errors)) ∧
     e ∈ errors ∧ located_at j e).
Proof.
  intros Hget Hstatus Hjson Hj Hbad.
  destruct (validate_items_rejects L items 0 j item Hj Hbad) as [Hnot Herr].
  pose proof (validate_items_no_raise L items 0) as Hnoraise.
  assert (∀ s, get_open_positions L w initial = s →
               fst s = match validate_python L (PyList items) with
                       | VOk positions => Ret positions
                       | VErrors errors =>
                           Raise (new_exn (ValidationError errors))
                       | VRaise e => Raise e
                       end) as Hrun.
  { intros s <-. unfold_run. rewrite Hget. cbn.
    assert ((200 <=? status_code r)%Z && (status_code r <=? 299)%Z = true)
      as -> by lia.
    cbn. rewrite Hjson. unfold validate_python.
    by destruct (validate_items L 0 items). }
  specialize (Hrun _ eq_refl).
  destruct (get_open_positions_no_write L w) as [Hnw _].
  destruct (get_open_positions L w initial) as [[ps|e] s1] eqn:Hfetch;
    cbn in Hrun, Hnw.
  { unfold validate_python in Hrun.
    by destruct (validate_items L 0 items). }
  rewrite (main_stops_when_fetch_raises L w e s1 Hfetch). cbn.
  split; [done|]. split; [by exists e|]. split; [done|].
  intros Hstr. destruct Herr as (errors & e0 & Heq & He0 & Hloc);
    [by apply Hnoraise|].
  exists errors, e0. unfold validate_python in *. rewrite Heq in *.
  by rewrite Hrun.
Qed.

Lemma invalid_record_fails_batch_witness :
  ∃ errors e,
    validate_python Fixtures.lax
      (PyList [PyDict Fixtures.TEST1; PyDict Fixtures.TEST1_without_fxPpl])
    = VErrors errors ∧
    e ∈ errors ∧ located_at 1 e.
Proof.
  destruct (invalid_record_fails_batch Fixtures.lax
              (Fixtures.world_with
                 (GetReturns
                    {| status_code := 200;
                       json := Some (PyList
                                 [PyDict Fixtures.TEST1;
                                  PyDict Fixtures.TEST1_without_fxPpl]) |}))
              {| status_code := 200;
                 json := Some (PyList
                           [PyDict Fixtures.TEST1;
                            PyDict Fixtures.TEST1_without_fxPpl]) |}
              [PyDict Fixtures.TEST1; PyDict Fixtures.TEST1_without_fxPpl]
              1 (PyDict Fixtures.TEST1_without_fxPpl))
    as (_ & _ & _ & Hloc).
  - reflexivity.
  - by split.
  - reflexivity.
  - reflexivity.
  - vm_compute. reflexivity.
  - destruct Hloc as (errors & e & Hv & _ & He & Hat).
    + intros d v Hd Hv.
      apply elem_of_cons in Hd as [Hd|Hd];
        [|apply list_elem_of_singleton in Hd];
        inversion Hd; subst d; vm_compute in Hv; inversion Hv; by eexists.
    + by exists errors, e.
Defined.

(** ** Assignment to the attributes of a Position *)

(** A field of the test position is reassigned: the model is not frozen. *)
Lemma position_field_reassigned :
  setattr Fixtures.test_position "ticker" (PyStr "OTHER")
  = Assigned (with_ticker Fixtures.test_position "OTHER") ∧
  getattr Fixtures.test_position "ticker" = Some (PyStr "TEST") ∧
  getattr (with_ticker Fixtures.test_position "OTHER") "ticker"
  = Some (PyStr "OTHER").
Proof. vm_compute. done. Qed.

Ltac case_name name :=
  repeat match goal with
         | |- context [String.eqb name ?lit] =>
             destruct (String.eqb_spec name lit) as [->|?]
         | H : context [String.eqb name ?lit] |- _ =>
             destruct (String.eqb_spec name lit) as [->|?]
         end.

Ltac each_member H :=
  repeat (apply elem_of_cons in H as [->|H]);
  [..|by apply elem_of_nil in H].

Lemma setattr_assigned (self : Position) (name : string) (v : pyval)
    (self' : Position) :
  setattr self name v = Assigned self' →
  name ∈ model_fields ∧
  getattr self' name = Some v ∧
  ∀ other : string,
    other ∈ model_fields → other ≠ name →
    getattr self' other = getattr self other.
Proof.
  destruct self. unfold setattr. intros H. case_name name; try done.
  all: destruct v as [| | |? |? |? | |]; try destruct f; cbn in H;
    try discriminate; inversion H; subst self'; clear H.
  all: split; [compute_done|]; split; [reflexivity|].
  all: intros other Hother Hne; unfold model_fields in Hother;
    each_member Hother; done.
Qed.

(** C6, as the code has it: a Position is not frozen.  Assigning to a
    declared field is never refused; a value of the field's declared type is
    stored as the new value of that field, whichever field it is, and the
    other fields keep theirs.  Only the derived [current_value] cannot be
    assigned: it is computed, from the current [current_price] and
    [quantity]. *)
Theorem position_fields_assignable (self : Position) :
  (∀ (name : string) (v : pyval),
     name ∈ model_fields → of_declared_type name v = true →
     ∃ self' : Position,
       setattr self name v = Assigned self' ∧
       getattr self' name = Some v ∧
       ∀ other : string,
         other ∈ model_fields → other ≠ name →
         getattr self' other = getattr self other) ∧
  (∀ (name : string) (v : pyval) (self' : Position),
     setattr self name v = Assigned self' →
     name ∈ model_fields ∧
     getattr self' name = Some v ∧
     ∀ other : string,
       other ∈ model_fields → other ≠ name →
       getattr self' other = getattr self other) ∧
  (∀ (name : string) (v : pyval),
     name ∈ model_fields →
     setattr self name v = Unvalidated ∨
     ∃ self', setattr self name v = Assigned self') ∧
  (∀ s : string, setattr self "ticker" (PyStr s) = Assigned (with_ticker self s)) ∧
  (∀ (name : string) (f : float),
     name ∈ [ "quantity"; "average_price"; "current_price"; "profit";
              "forex_movement_impact"; "max_buy"; "max_sell";
              "pie_quantity" ] →
     ∃ self', setattr self name (PyFloat f) = Assigned self') ∧
  (∀ v : pyval,
     setattr self "current_value" v
     = Refused (new_exn (AttributeError "current_value"))) ∧
  getattr self "current_value"
  = Some (PyFloat (current_price self * quantity self)%float).
Proof.
  split.
  { intros name v Hname Htype.
    assert (∃ self', setattr self name v = Assigned self') as [self' Hset].
    { destruct self. unfold model_fields in Hname. each_member Hname.
      all: destruct v; try discriminate Htype; by eexists. }
    exists self'. split; [exact Hset|].
    by apply (setattr_assigned self name v self'). }
  split; [intros name v self'; apply setattr_assigned|].
  destruct self. repeat split.
  - intros name v Hname. unfold model_fields in Hname. each_member Hname.
    all: cbn; match goal with
              | |- context [store ?o _] => destruct o; cbn; eauto
              end.
  - intros name f Hname. each_member Hname; by eexists.
Qed.

Lemma position_fields_assignable_witness :
  (∃ self' : Position,
     setattr Fixtures.test_position "frontend" (PyStr "MANUAL")
     = Assigned self' ∧
     getattr self' "frontend" = Some (PyStr "MANUAL") ∧
     ∀ other : string,
       other ∈ model_fields → other ≠ "frontend" →
       getattr self' other = getattr Fixtures.test_position other) ∧
  (∃ self' : Position,
     setattr Fixtures.test_position "initial_fill_date"
       (PyDatetime Fixtures.DEFAULT_TIME)
     = Assigned self' ∧
     getattr self' "initial_fill_date"
     = Some (PyDatetime Fixtures.DEFAULT_TIME) ∧
     ∀ other : string,
       other ∈ model_fields → other ≠ "initial_fill_date" →
       getattr self' other = getattr Fixtures.test_position other) ∧
  (∃ self' : Position,
     setattr Fixtures.test_position "forex_movement_impact" PyNone
     = Assigned self' ∧
     getattr self' "forex_movement_impact" = Some PyNone ∧
     ∀ other : string,
       other ∈ model_fields → other ≠ "forex_movement_impact" →
       getattr self' other = getattr Fixtures.test_position other) ∧
  getattr (with_ticker Fixtures.test_position "OTHER") "ticker"
  = Some (PyStr "OTHER").
Proof.
  split_and!.
  - apply (proj1 (position_fields_assignable Fixtures.test_position)
             "frontend" (PyStr "MANUAL")); [compute_done|reflexivity].
  - apply (proj1 (position_fields_assignable Fixtures.test_position)
             "initial_fill_date" (PyDatetime Fixtures.DEFAULT_TIME));
      [compute_done|reflexivity].
  - apply (proj1 (position_fields_assignable Fixtures.test_position)
             "forex_movement_impact" PyNone); [compute_done|reflexivity].
  - apply (proj1 (proj2 (position_fields_assignable Fixtures.test_position))
             "ticker" (PyStr "OTHER")
             (with_ticker Fixtures.test_position "OTHER")).
    reflexivity.
Defined.

(** * Further properties *)

(** ** The normalised ticker *)

Lemma partition_before_no_underscore (s : string) :
  no_underscore (Py.partition s "_").1.1 = true.
Proof.
  induction s as [|c r IH]; [done|].
  cbn [Py.partition String.prefix].
  destruct (ascii_dec "_" c) as [<-|Hc]; [by destruct r|].
  destruct (Py.partition r "_") as [[before found] after]. cbn in *.
  destruct (Ascii.eqb_spec c "_") as [->|_]; [done|]. exact IH.
Qed.

Lemma validate_ticker_normalised (raw : string) :
  validate_ticker (PyStr raw) = Ret (normalised_ticker raw).
Proof.
  unfold validate_ticker, normalised_ticker.
  by destruct (Py.partition raw "_") as [[before found] after].
Qed.

Lemma normalised_ticker_no_underscore (raw : string) :
  no_underscore (normalised_ticker raw) = true.
Proof.
  unfold normalised_ticker.
  by rewrite upper_no_underscore, partition_before_no_underscore.
Qed.

Lemma normalised_ticker_idemp (raw : string) :
  normalised_ticker (normalised_ticker raw) = normalised_ticker raw.
Proof.
  unfold normalised_ticker at 1.
  rewrite partition_no_underscore
    by apply no_underscore_free, normalised_ticker_no_underscore.
  apply upper_idemp.
Qed.

(** The ticker validator is total on strings and idempotent: its result
    holds no underscore, is its own upper-casing, and is returned unchanged
    when it is validated again. *)
Theorem validate_ticker_idempotent (raw : string) :
  ∃ t : string,
    validate_ticker (PyStr raw) = Ret t ∧
    underscore_free t ∧
    Py.upper t = t ∧
    validate_ticker (PyStr t) = Ret t.
Proof.
  exists (normalised_ticker raw).
  split; [apply validate_ticker_normalised|].
  split; [apply no_underscore_free, normalised_ticker_no_underscore|].
  split; [apply upper_idemp|].
  by rewrite validate_ticker_normalised, normalised_ticker_idemp.
Qed.

(** ** Field lookup: names, aliases and unknown keys *)

Lemma field_by_alias {A} (d : gmap string pyval) (name : string)
    (explicit : option string) (validator : pyval → vresult A) (v : pyval) :
  d !! alias_of name explicit = Some v →
  field d name explicit validator
  = with_loc (LocKey (alias_of name explicit)) (validator v).
Proof. intros Ha. unfold field, lookup_field. by rewrite Ha. Qed.

Lemma field_by_name {A} (d : gmap string pyval) (name : string)
    (explicit : option string) (validator : pyval → vresult A) (v : pyval) :
  d !! alias_of name explicit = None → d !! name = Some v →
  field d name explicit validator = with_loc (LocKey name) (validator v).
Proof. intros Ha Hn. unfold field, lookup_field. by rewrite Ha, Hn. Qed.

Lemma field_missing {A} (d : gmap string pyval) (name : string)
    (explicit : option string) (validator : pyval → vresult A) :
  d !! alias_of name explicit = None → d !! name = None →
  field d name explicit validator
  = VErrors [ {| err_type := missing;
                 err_loc := [LocKey (alias_of name explicit)] |} ].
Proof. intros Ha Hn. unfold field, lookup_field. by rewrite Ha, Hn. Qed.

Lemma field_insert_shadowed {A} (d : gmap string pyval) (k : string)
    (v' : pyval) (name : string) (explicit : option string)
    (validator : pyval → vresult A) (v : pyval) :
  k ≠ alias_of name explicit → d !! alias_of name explicit = Some v →
  field (<[k := v']> d) name explicit validator
  = field d name explicit validator.
Proof.
  intros Hk Ha. unfold field, lookup_field.
  by rewrite lookup_insert_ne, Ha.
Qed.

Lemma ticker_field_str (s : string) :
  ticker_field (PyStr s) = VOk (normalised_ticker s).
Proof. unfold ticker_field. by rewrite validate_ticker_normalised. Qed.

Lemma validated_ticker_normalised (L : LaxCoercions) (raw : pyval)
    (p : Position) :
  validate_position L raw = VOk p → ∃ s, ticker p = normalised_ticker s.
Proof.
  destruct raw as [| | | | | | |d]; try done.
  unfold validate_position. intros H. vap_inv H. cbn.
  match goal with
  | Ht : field d "ticker" None ticker_field = VOk _ |- _ =>
      unfold field in Ht;
      destruct (lookup_field d (alias_of "ticker" None) "ticker")
        as [[k v]|]; [|done];
      destruct v as [| | | |s| | |]; try done;
      rewrite ticker_field_str in Ht; inversion Ht
  end.
  by exists s.
Qed.

(** Building a position again from its own field values, passed by name,
    always succeeds and changes nothing but the ticker, which is normalised;
    a position that came out of validation is rebuilt as it is. *)
Theorem rebuild_by_name (L : LaxCoercions) (self : Position) :
  validate_position L (PyDict (as_kwargs self))
  = VOk (with_ticker self (normalised_ticker (ticker self))) ∧
  ∀ raw : pyval,
    validate_position L raw = VOk self →
    validate_position L (PyDict (as_kwargs self)) = VOk self.
Proof.
  assert (validate_position L (PyDict (as_kwargs self))
          = VOk (with_ticker self (normalised_ticker (ticker self)))) as Hre.
  { unfold validate_position.
    rewrite (field_by_alias _ "ticker" None _ (PyStr (ticker self)))
      by by vm_compute.
    rewrite (field_by_alias _ "quantity" None _ (PyFloat (quantity self)))
      by by vm_compute.
    rewrite (field_by_name _ "average_price" None _
               (PyFloat (average_price self))) by by vm_compute.
    rewrite (field_by_name _ "current_price" None _
               (PyFloat (current_price self))) by by vm_compute.
    rewrite (field_by_name _ "profit" (Some "ppl") _ (PyFloat (profit self)))
      by by vm_compute.
    rewrite (field_by_name _ "forex_movement_impact" (Some "fxPpl") _
               (of_opt_float (forex_movement_impact self))) by by vm_compute.
    rewrite (field_by_name _ "initial_fill_date" None _
               (PyDatetime (initial_fill_date self))) by by vm_compute.
    rewrite (field_by_alias _ "frontend" None _ (PyStr (frontend self)))
      by by vm_compute.
    rewrite (field_by_name _ "max_buy" None _ (PyFloat (max_buy self)))
      by by vm_compute.
    rewrite (field_by_name _ "max_sell" None _ (PyFloat (max_sell self)))
      by by vm_compute.
    rewrite (field_by_name _ "pie_quantity" None _
               (PyFloat (pie_quantity self))) by by vm_compute.
    rewrite ticker_field_str.
    destruct self as [t q ap cp pr [fx|] ifd fe mb ms pq]; reflexivity. }
  split; [exact Hre|].
  intros raw Hraw. rewrite Hre.
  destruct (validated_ticker_normalised L raw self Hraw) as [s Hs].
  destruct self. cbn in *. by rewrite Hs, normalised_ticker_idemp.
Qed.

Ltac each_pair H :=
  repeat (apply elem_of_cons in H as [H|H]; [inversion H; subst; clear H|]);
  [..|by apply elem_of_nil in H].

(** When a record carries a field under both of its keys, the alias is the
    one that counts: whatever stands under the field's name is ignored. *)
Theorem alias_takes_precedence (L : LaxCoercions) (d : gmap string pyval)
    (name alias : string) (v v' : pyval) :
  (name, alias) ∈ renamed_fields →
  d !! alias = Some v →
  validate_position L (PyDict (<[name := v']> d))
  = validate_position L (PyDict d).
Proof.
  intros Hin Hd.
  assert (renamed_fields
          = [ ("average_price", "averagePrice");
              ("current_price", "currentPrice"); ("profit", "ppl");
              ("forex_movement_impact", "fxPpl");
              ("initial_fill_date", "initialFillDate");
              ("max_buy", "maxBuy"); ("max_sell", "maxSell");
              ("pie_quantity", "pieQuantity") ]) as Hren
    by (vm_compute; reflexivity).
  rewrite Hren in Hin. unfold validate_position. each_pair Hin.
  all: match goal with
       | |- context [field (<[?k := _]> _) ?k ?ex ?val] =>
           rewrite (field_insert_shadowed d k v' k ex val v) by done
       end.
  all: by rewrite !field_insert_ne by done.
Qed.

Lemma alias_takes_precedence_witness :
  validate_position Fixtures.lax
    (PyDict (<["profit" := PyStr "not a number"]> Fixtures.TEST1))
  = validate_position Fixtures.lax (PyDict Fixtures.TEST1).
Proof.
  apply (alias_takes_precedence Fixtures.lax Fixtures.TEST1 "profit" "ppl"
           (PyFloat 0.99)).
  - apply (list_elem_of_lookup_2 _ 2). vm_compute. reflexivity.
  - vm_compute. reflexivity.
Defined.

(** Keys that are not a field's name or alias are ignored, however many
    there are. *)
Theorem unknown_keys_ignored (L : LaxCoercions)
    (d extra : gmap string pyval) :
  (∀ k, k ∈ field_keys → extra !! k = None) →
  validate_position L (PyDict (extra ∪ d)) = validate_position L (PyDict d).
Proof.
  intros Hextra. unfold validate_position, field, lookup_field.
  rewrite !lookup_union_r by (apply Hextra; compute_done).
  reflexivity.
Qed.

Lemma unknown_keys_ignored_witness :
  validate_position Fixtures.lax
    (PyDict ({[ "currency" := PyStr "EUR"; "isin" := PyNone ]}
               ∪ Fixtures.TEST1))
  = validate_position Fixtures.lax (PyDict Fixtures.TEST1).
Proof.
  apply (unknown_keys_ignored Fixtures.lax Fixtures.TEST1).
  intros k Hk. unfold field_keys in Hk. vm_compute in Hk.
  repeat (apply elem_of_cons in Hk as [->|Hk]; [by vm_compute|]).
  by apply elem_of_nil in Hk.
Defined.

(** Validation of a record does not stop at its first bad field: every
    field that is absent under both of its keys is reported missing, at its
    alias. *)
Theorem every_missing_field_reported (L : LaxCoercions)
    (d : gmap string pyval) (name alias : string) :
  (name, alias) ∈ field_aliases →
  d !! alias = None → d !! name = None →
  reports {| err_type := missing; err_loc := [LocKey alias] |}
    (validate_position L (PyDict d)).
Proof.
  intros Hin Ha Hn. unfold validate_position, field_aliases in *.
  each_pair Hin.
  all: repeat first
    [ apply reports_vap_r; rewrite field_missing by done;
      apply list_elem_of_singleton; reflexivity
    | apply reports_vap_l ].
Qed.

Lemma every_missing_field_reported_witness :
  reports {| err_type := missing; err_loc := [LocKey "maxSell"] |}
    (validate_position Fixtures.lax
       (PyDict (delete "maxSell" Fixtures.TEST1_without_fxPpl))) ∧
  reports {| err_type := missing; err_loc := [LocKey "fxPpl"] |}
    (validate_position Fixtures.lax
       (PyDict (delete "maxSell" Fixtures.TEST1_without_fxPpl))).
Proof.
  split.
  - apply (every_missing_field_reported Fixtures.lax _ "max_sell" "maxSell").
    + apply (list_elem_of_lookup_2 _ 9). reflexivity.
    + vm_compute. reflexivity.
    + vm_compute. reflexivity.
  - apply (every_missing_field_reported Fixtures.lax _
             "forex_movement_impact" "fxPpl").
    + apply (list_elem_of_lookup_2 _ 5). reflexivity.
    + vm_compute. reflexivity.
    + vm_compute. reflexivity.
Defined.

(** ** The list of positions *)

Lemma validate_items_ok_iff (L : LaxCoercions) (items : list pyval) :
  ∀ (i : nat) (positions : list Position),
    validate_items L i items = VOk positions ↔
    Forall2 (λ item p, validate_position L item = VOk p) items positions.
Proof.
  induction items as [|item rest IH]; intros i positions; cbn [validate_items].
  - split.
    + intros H. inversion H. constructor.
    + intros H. by inversion H.
  - split.
    + intros H. apply vap_VOk_inv in H as (f & ps & H & Hrest & ->).
      apply vap_VOk_inv in H as (g & p & Hg & Hitem & ->).
      inversion Hg; subst g. constructor.
      * by destruct (validate_position L item).
      * by apply (IH (S i)).
    + intros H. inversion H as [|? p ? ps Hitem Hrest]; subst.
      apply (IH (S i)) in Hrest. by rewrite Hitem, Hrest.
Qed.

(** A list is accepted exactly when each of its items is, and the positions
    returned are those of the items, one for one and in their order. *)
Theorem validate_python_ok_iff (L : LaxCoercions) (items : list pyval)
    (positions : list Position) :
  validate_python L (PyList items) = VOk positions ↔
  Forall2 (λ item p, validate_position L item = VOk p) items positions.
Proof. apply validate_items_ok_iff. Qed.

(** ** What a point keeps of a position *)

Lemma of_opt_float_inj (a b : option float) :
  of_opt_float a = of_opt_float b → a = b.
Proof. destruct a, b; cbn; intros H; by inversion H. Qed.

(** Two positions give the same point (for the same timestamp) exactly when
    they agree on ticker, current price, average price, quantity, profit and
    forex movement impact: the fill date, the frontend, the buy and sell
    limits and the pie quantity never reach the point. *)
Theorem point_keeps_written_part (self other : Position) (time : datetime) :
  build_point self time = build_point other time ↔
  written_part self = written_part other.
Proof.
  destruct self as [t q ap cp pr fx ifd fe mb ms pq],
    other as [t' q' ap' cp' pr' fx' ifd' fe' mb' ms' pq'].
  unfold written_part. cbn [ticker quantity average_price current_price profit
                            forex_movement_impact].
  split.
  - intros H.
    pose proof (f_equal (λ pt, point_tags pt !! "ticker") H) as Ht.
    pose proof (f_equal (λ pt, point_fields pt !! "current_price") H) as Hcp.
    pose proof (f_equal (λ pt, point_fields pt !! "average_price") H) as Hap.
    pose proof (f_equal (λ pt, point_fields pt !! "quantity") H) as Hq.
    pose proof (f_equal (λ pt, point_fields pt !! "profit") H) as Hpr.
    pose proof (f_equal (λ pt, point_fields pt !! "forex_movement_impact") H)
      as Hfx.
    clear H. destruct fx, fx'; vm_compute in Ht, Hcp, Hap, Hq, Hpr, Hfx;
      by simplify_eq.
  - intros H. simplify_eq. reflexivity.
Qed.

(** ** Runs: the ways a fetch ends *)

Ltac status_ok r :=
  assert ((200 <=? status_code r)%Z && (status_code r <=? 299)%Z = true)
    as -> by lia.

(** A 2xx answer whose JSON body is a list of valid records: the fetch
    returns their positions, one for one and in order, after creating and
    closing one client around the single GET and logging the success; no
    error is logged. *)
Theorem fetch_returns_validated (L : LaxCoercions) (w : World)
    (r : Response) (items : list pyval) (positions : list Position) :
  http_get w = GetReturns r →
  (200 ≤ status_code r ≤ 299)%Z →
  json r = Some (PyList items) →
  Forall2 (λ item p, validate_position L item = VOk p) items positions →
  fst (get_open_positions L w initial) = Ret positions ∧
  length positions = length items ∧
  events (snd (get_open_positions L w initial))
  = [ ClientCreated (t212_api_key (settings w));
      HttpGet (t212_url (settings w)) (t212_api_key (settings w));
      ClientClosed;
      LogInfo "API call to Trading212 successful." ].
Proof.
  intros Hget Hstatus Hjson Hall.
  pose proof (Forall2_length _ _ _ Hall) as Hlen.
  apply (validate_items_ok_iff L items 0) in Hall.
  unfold_run. rewrite Hget. cbn. status_ok r. cbn. rewrite Hjson.
  unfold validate_python. rewrite Hall. cbn. by rewrite Hlen.
Qed.

Lemma fetch_returns_validated_witness :
  fst (get_open_positions Fixtures.lax
         (Fixtures.world_with (GetReturns Fixtures.DEFAULT_RESPONSE)) initial)
  = Ret [Fixtures.TEST1_position; Fixtures.TEST2_position].
Proof.
  apply (fetch_returns_validated Fixtures.lax
           (Fixtures.world_with (GetReturns Fixtures.DEFAULT_RESPONSE))
           Fixtures.DEFAULT_RESPONSE
           [PyDict Fixtures.TEST1; PyDict Fixtures.TEST2]).
  - reflexivity.
  - by split.
  - reflexivity.
  - repeat constructor; vm_compute; reflexivity.
Defined.

(** The success message is logged as soon as the status is 2xx, before the
    body is looked at: a 2xx answer whose body is not JSON, or is JSON but
    not a list, still logs the success and then raises (a decoding error, or
    a validation error with the one line error "not a list"). *)
Theorem success_logged_before_body_is_read (L : LaxCoercions) (w : World)
    (r : Response) :
  http_get w = GetReturns r →
  (200 ≤ status_code r ≤ 299)%Z →
  events (snd (get_open_positions L w initial))
  = [ ClientCreated (t212_api_key (settings w));
      HttpGet (t212_url (settings w)) (t212_api_key (settings w));
      ClientClosed;
      LogInfo "API call to Trading212 successful." ] ∧
  (json r = None →
   fst (get_open_positions L w initial) = Raise (new_exn JSONDecodeError)) ∧
  (∀ data, json r = Some data → (∀ items, data ≠ PyList items) →
   fst (get_open_positions L w initial)
   = Raise (new_exn (ValidationError
                       [ {| err_type := list_type; err_loc := [] |} ]))).
Proof.
  intros Hget Hstatus. unfold_run. rewrite Hget. cbn. status_ok r. cbn.
  destruct (json r) as [data|]; cbn.
  - split; [by destruct (validate_python L data)|]. split; [done|].
    intros ? [= <-] Hnot.
    destruct data; try done. by destruct (Hnot items).
  - split; [done|]. split; [done|]. by intros.
Qed.

Lemma success_logged_before_body_is_read_witness :
  fst (get_open_positions Fixtures.lax
         (Fixtures.world_with
            (GetReturns {| status_code := 200; json := Some (PyDict ∅) |}))
         initial)
  = Raise (new_exn (ValidationError
                      [ {| err_type := list_type; err_loc := [] |} ])).
Proof.
  destruct (success_logged_before_body_is_read Fixtures.lax
              (Fixtures.world_with
                 (GetReturns {| status_code := 200;
                                json := Some (PyDict ∅) |}))
              {| status_code := 200; json := Some (PyDict ∅) |})
    as (_ & _ & Hbody).
  - reflexivity.
  - by split.
  - apply (Hbody (PyDict ∅)); [reflexivity|]. intros items. discriminate.
Defined.

(** An exception of the GET that is not an [HTTPError] (an invalid URL, for
    one) is not caught: it leaves [get_open_positions] and [main] as it is,
    after the client was closed; nothing is logged and nothing is written. *)
Theorem other_exceptions_pass_through (L : LaxCoercions) (w : World)
    (cls : exn_class) :
  http_get w = GetRaises cls →
  is_HTTPError cls = false →
  fst (get_open_positions L w initial) = Raise (new_exn cls) ∧
  fst (main L w initial) = Raise (new_exn cls) ∧
  events (snd (main L w initial))
  = [ ClientCreated (t212_api_key (settings w));
      HttpGet (t212_url (settings w)) (t212_api_key (settings w));
      ClientClosed ].
Proof.
  intros Hget Hcls.
  assert (get_open_positions L w initial
          = (Raise (new_exn cls),
             {| events := [ ClientCreated (t212_api_key (settings w));
                            HttpGet (t212_url (settings w))
                              (t212_api_key (settings w));
                            ClientClosed ];
                clock_reads := 0; response_var := None |})) as Hrun.
  { unfold_run. rewrite Hget. cbn. by rewrite Hcls. }
  rewrite (main_stops_when_fetch_raises L w _ _ Hrun). by rewrite Hrun.
Qed.

Lemma other_exceptions_pass_through_witness :
  fst (get_open_positions Fixtures.lax
         (Fixtures.world_with (GetRaises InvalidURL)) initial)
  = Raise (new_exn InvalidURL).
Proof.
  apply (other_exceptions_pass_through Fixtures.lax
           (Fixtures.world_with (GetRaises InvalidURL)) InvalidURL);
    reflexivity.
Defined.

(** Whenever the GET itself raises an [HTTPError] (a timeout, a connection
    or protocol error, too many redirects, ...), what leaves
    [get_open_positions] is an [UnboundLocalError] for [response], with the
    error of the GET as its context and no cause; the client was closed, no
    error is logged and nothing is written. *)
Theorem http_error_of_get_is_masked (L : LaxCoercions) (w : World)
    (cls : exn_class) :
  http_get w = GetRaises cls →
  is_HTTPError cls = true →
  fst (get_open_positions L w initial)
  = Raise (Exn (UnboundLocalError "response") None (Some (new_exn cls))) ∧
  fst (main L w initial)
  = Raise (Exn (UnboundLocalError "response") None (Some (new_exn cls))) ∧
  events (snd (main L w initial))
  = [ ClientCreated (t212_api_key (settings w));
      HttpGet (t212_url (settings w)) (t212_api_key (settings w));
      ClientClosed ].
Proof.
  intros Hget Hcls.
  assert (get_open_positions L w initial
          = (Raise (Exn (UnboundLocalError "response") None
                      (Some (new_exn cls))),
             {| events := [ ClientCreated (t212_api_key (settings w));
                            HttpGet (t212_url (settings w))
                              (t212_api_key (settings w));
                            ClientClosed ];
                clock_reads := 0; response_var := None |})) as Hrun.
  { unfold_run. rewrite Hget. cbn. by rewrite Hcls. }
  rewrite (main_stops_when_fetch_raises L w _ _ Hrun). by rewrite Hrun.
Qed.

Lemma http_error_of_get_is_masked_witness :
  fst (get_open_positions Fixtures.lax
         (Fixtures.world_with (GetRaises ReadTimeout)) initial)
  = Raise (Exn (UnboundLocalError "response") None
             (Some (new_exn ReadTimeout))).
Proof.
  apply (http_error_of_get_is_masked Fixtures.lax
           (Fixtures.world_with (GetRaises ReadTimeout)) ReadTimeout);
    reflexivity.
Defined.

(** ** Runs: the write *)

(** After a fetch that returned, [main] creates one database client and
    attempts one write, to the configured bucket and organisation.  When the
    write raises, that very exception ends the run (it is not wrapped and has
    no cause) and the success message is not logged; when it does not, the
    run returns and the message is its last event. *)
Theorem write_failure_propagates (L : LaxCoercions) (w : World)
    (positions : list Position) :
  fst (get_open_positions L w initial) = Ret positions →
  fst (main L w initial)
  = match influx_write w with
    | None => Ret tt
    | Some cls => Raise (new_exn cls)
    end ∧
  events (snd (main L w initial))
  = (events (snd (get_open_positions L w initial))
     ++ [ InfluxClientCreated (influxdb_url (settings w))
            (influxdb_token (settings w)) (influxdb_org (settings w));
          InfluxWrite (stocks_bucket_name (settings w))
            (influxdb_org (settings w))
            ((λ position, build_point position (clock w 0)) <$> positions) ]
     ++ match influx_write w with
        | None => [ LogInfo "Data pushed to InfluxDB successfully." ]
        | Some _ => []
        end)%list.
Proof.
  intros Hfetch.
  destruct (get_open_positions_no_write L w) as [_ Hclock].
  destruct (get_open_positions L w initial) as [r s1] eqn:Hrun.
  cbn in Hfetch, Hclock. subst r.
  rewrite (main_after_fetch L w positions s1 Hrun), Hclock.
  unfold push_data_to_influxdb, bind, emit, ask, ret, raise. cbn.
  destruct (influx_write w); cbn; by rewrite <- !app_assoc.
Qed.

Lemma write_failure_propagates_witness :
  fst (main Fixtures.lax
         {| settings := Fixtures.test_settings;
            http_get := GetReturns Fixtures.DEFAULT_RESPONSE;
            clock := λ _, Fixtures.DEFAULT_TIME;
            influx_write := Some InfluxApiException |} initial)
  = Raise (new_exn InfluxApiException).
Proof.
  apply (write_failure_propagates Fixtures.lax
           {| settings := Fixtures.test_settings;
              http_get := GetReturns Fixtures.DEFAULT_RESPONSE;
              clock := λ _, Fixtures.DEFAULT_TIME;
              influx_write := Some InfluxApiException |}
           [Fixtures.TEST1_position; Fixtures.TEST2_position]).
  vm_compute. reflexivity.
Defined.

(** An empty list of positions is not a special case: the run still creates
    the database client and performs its one write, with no points in it. *)
Theorem empty_batch_is_written (L : LaxCoercions) (w : World) (r : Response) :
  http_get w = GetReturns r →
  (200 ≤ status_code r ≤ 299)%Z →
  json r = Some (PyList []) →
  fst (get_open_positions L w initial) = Ret [] ∧
  InfluxWrite (stocks_bucket_name (settings w)) (influxdb_org (settings w)) []
    ∈ events (snd (main L w initial)) ∧
  count is_write (events (snd (main L w initial))) = 1.
Proof.
  intros Hget Hstatus Hjson.
  assert (get_open_positions L w initial
          = (Ret [],
             {| events := [ ClientCreated (t212_api_key (settings w));
                            HttpGet (t212_url (settings w))
                              (t212_api_key (settings w));
                            ClientClosed;
                            LogInfo "API call to Trading212 successful." ];
                clock_reads := 0; response_var := Some r |})) as Hrun.
  { unfold_run. rewrite Hget. cbn. status_ok r. cbn. by rewrite Hjson. }
  rewrite (main_after_fetch L w [] _ Hrun), Hrun.
  unfold push_data_to_influxdb, bind, emit, ask, ret, raise. cbn.
  split; [done|].
  destruct (influx_write w); cbn; (split; [|done]);
    apply (list_elem_of_lookup_2 _ 5); reflexivity.
Qed.

Lemma empty_batch_is_written_witness :
  InfluxWrite "stocks" "org" []
    ∈ events (snd (main Fixtures.lax
                     (Fixtures.world_with
                        (GetReturns {| status_code := 200;
                                       json := Some (PyList []) |}))
                     initial)).
Proof.
  apply (empty_batch_is_written Fixtures.lax
           (Fixtures.world_with
              (GetReturns {| status_code := 200; json := Some (PyList []) |}))
           {| status_code := 200; json := Some (PyList []) |}).
  - reflexivity.
  - by split.
  - reflexivity.
Defined.

(** ** Settings that were never set *)

Lemma setting_unset (env : Environment) (env_prefix name default : string) :
  unset env (lower (env_prefix ++ name)) →
  setting env env_prefix name default = default.
Proof. intros [Hos Hdot]. unfold setting. cbn zeta. by rewrite Hos, Hdot. Qed.

(** Nothing checks the settings before they are used.  With the URL and the
    API key of Trading212 set nowhere, the run still creates its client and
    issues the GET, to the URL "NOT_SET" with "NOT_SET" as the Authorization
    header (and either of the two alone is used as "NOT_SET" when it is the
    one that is set nowhere); and with the bucket name set nowhere, whatever
    else is set, a write goes to the bucket "stocks". *)
Theorem unset_settings_are_used (L : LaxCoercions) (w : World)
    (env : Environment) :
  settings w = load_settings env →
  (unset env "t212_url" → unset env "t212_api_key" →
     take 2 (events (snd (get_open_positions L w initial)))
     = [ ClientCreated "NOT_SET"; HttpGet "NOT_SET" "NOT_SET" ]) ∧
  (unset env "t212_url" →
     ∃ key : string,
       take 2 (events (snd (get_open_positions L w initial)))
       = [ ClientCreated key; HttpGet "NOT_SET" key ]) ∧
  (unset env "t212_api_key" →
     ∃ url : string,
       take 2 (events (snd (get_open_positions L w initial)))
       = [ ClientCreated "NOT_SET"; HttpGet url "NOT_SET" ]) ∧
  (unset env "influxdb_stocks_bucket_name" →
     ∀ bucket org record,
       InfluxWrite bucket org record ∈ events (snd (main L w initial)) →
       bucket = "stocks").
Proof.
  intros Hsettings.
  assert (take 2 (events (snd (get_open_positions L w initial)))
          = [ ClientCreated (t212_api_key (settings w));
              HttpGet (t212_url (settings w)) (t212_api_key (settings w)) ])
    as Hfirst.
  { case_world w.
    all: try match goal with
             | |- context [validate_python ?L0 ?d] =>
                 destruct (validate_python L0 d); cbn
             end.
    all: reflexivity. }
  assert (unset env "t212_url" → t212_url (settings w) = "NOT_SET") as Hu.
  { intros Hurl. rewrite Hsettings. by apply setting_unset. }
  assert (unset env "t212_api_key" → t212_api_key (settings w) = "NOT_SET")
    as Hk.
  { intros Hkey. rewrite Hsettings. by apply setting_unset. }
  split_and!.
  - intros Hurl Hkey. by rewrite Hfirst, Hu, Hk.
  - intros Hurl. exists (t212_api_key (settings w)). by rewrite Hfirst, Hu.
  - intros Hkey. exists (t212_url (settings w)). by rewrite Hfirst, Hk.
  - intros Hbucket bucket org record Hin.
    assert (stocks_bucket_name (settings w) = "stocks") as Hb.
    { rewrite Hsettings. by apply setting_unset. }
    destruct (get_open_positions_no_write L w) as [Hnw _].
    destruct (get_open_positions L w initial) as [[positions|e] s1] eqn:Hrun.
    + rewrite (main_after_fetch L w positions s1 Hrun) in Hin.
      destruct (push_data_events
                  ((λ position,
                      build_point position (clock w (clock_reads s1)))
                     <$> positions)
                  (stocks_bucket_name (settings w)) w
                  {| events := events s1; clock_reads := S (clock_reads s1);
                     response_var := response_var s1 |})
        as (rest & Hev & Hrest & _).
      rewrite Hev in Hin. cbn in Hin, Hnw.
      rewrite elem_of_app, !elem_of_cons in Hin.
      destruct Hin as [Hin|[Hin|[Hin|Hin]]].
      * by apply (count_elem is_write) in Hin.
      * discriminate.
      * inversion Hin. by rewrite Hb.
      * by apply (count_elem is_write) in Hin.
    + rewrite (main_stops_when_fetch_raises L w e s1 Hrun) in Hin.
      cbn in Hin, Hnw. by apply (count_elem is_write) in Hin.
Qed.

Lemma unset_settings_are_used_witness :
  take 2 (events (snd (get_open_positions Fixtures.lax
                         {| settings :=
                              load_settings
                                {| os_environ :=
                                     {[ "influxdb_org" := "acme" ]};
                                   dotenv := ∅ |};
                            http_get := GetReturns Fixtures.DEFAULT_RESPONSE;
                            clock := λ _, Fixtures.DEFAULT_TIME;
                            influx_write := None |} initial)))
  = [ ClientCreated "NOT_SET"; HttpGet "NOT_SET" "NOT_SET" ] ∧
  ∃ bucket : string,
    InfluxWrite bucket "NOT_SET"
      ((λ position, build_point position Fixtures.DEFAULT_TIME)
         <$> [Fixtures.TEST1_position; Fixtures.TEST2_position])
    ∈ events (snd (main Fixtures.lax
                     {| settings :=
                          load_settings
                            {| os_environ :=
                                 {[ "t212_url"
                                    := "https://live.trading212.com" ]};
                               dotenv := {[ "t212_api_key" := "secret" ]} |};
                        http_get := GetReturns Fixtures.DEFAULT_RESPONSE;
                        clock := λ _, Fixtures.DEFAULT_TIME;
                        influx_write := None |} initial)) ∧
    bucket = "stocks".
Proof.
  split.
  - apply (proj1 (unset_settings_are_used Fixtures.lax
             {| settings :=
                  load_settings
                    {| os_environ := {[ "influxdb_org" := "acme" ]};
                       dotenv := ∅ |};
                http_get := GetReturns Fixtures.DEFAULT_RESPONSE;
                clock := λ _, Fixtures.DEFAULT_TIME;
                influx_write := None |}
             {| os_environ := {[ "influxdb_org" := "acme" ]}; dotenv := ∅ |}
             eq_refl)).
    + by split.
    + by split.
  - exists (stocks_bucket_name
              (load_settings
                 {| os_environ :=
                      {[ "t212_url" := "https://live.trading212.com" ]};
                    dotenv := {[ "t212_api_key" := "secret" ]} |})).
    assert (∀ P Q : Prop, P → (P → Q) → P ∧ Q) as Hboth by tauto.
    apply Hboth.
    + vm_compute. repeat constructor.
    + apply (proj2 (proj2 (proj2 (unset_settings_are_used Fixtures.lax
               {| settings :=
                    load_settings
                      {| os_environ :=
                           {[ "t212_url" := "https://live.trading212.com" ]};
                         dotenv := {[ "t212_api_key" := "secret" ]} |};
                  http_get := GetReturns Fixtures.DEFAULT_RESPONSE;
                  clock := λ _, Fixtures.DEFAULT_TIME;
                  influx_write := None |}
               {| os_environ :=
                    {[ "t212_url" := "https://live.trading212.com" ]};
                  dotenv := {[ "t212_api_key" := "secret" ]} |}
               eq_refl)))).
      by split.
Defined.

(** ** The default timestamp *)

(** Left to itself, [to_point] stamps each point with a clock reading of its
    own: over a batch, the i-th point gets the i-th next reading, so the
    timestamps of one batch differ as soon as the clock moves. *)
Theorem default_time_is_read_per_point (positions : list Position)
    (w : World) (s : State) :
  for_each (λ position, to_point position None) positions w s
  = (Ret (imap (λ i position,
                  build_point position (clock w (clock_reads s + i)))
            positions),
     after_reads (length positions) s).
Proof.
  revert s. induction positions as [|p ps IH]; intros s.
  - cbn. unfold ret, after_reads. destruct s. cbn. by rewrite Nat.add_0_r.
  - cbn [for_each]. unfold bind at 1. cbn. unfold bind at 1. rewrite IH.
    cbn. unfold after_reads, ret. cbn. rewrite Nat.add_0_r.
    replace (clock_reads s + S (length ps)) with (S (clock_reads s + length ps))
      by lia.
    do 3 f_equal. apply imap_ext. intros i x _. cbn.
    by rewrite Nat.add_succ_r.
Qed.

(** ** The Authorization header *)

Lemma get_list_without_same (name name' : string) (headers : Headers) :
  lower name' = lower name → get_list name' (without name headers) = [].
Proof.
  intros Hn. induction headers as [|h rest IH]; [done|]. cbn.
  destruct (named name h) eqn:Hh; [done|]. cbn.
  unfold named in *. rewrite Hn. by rewrite Hh.
Qed.

Lemma get_list_without_other (name name' : string) (headers : Headers) :
  lower name' ≠ lower name →
  get_list name' (without name headers) = get_list name' headers.
Proof.
  intros Hn. induction headers as [|h rest IH]; [done|]. cbn.
  destruct (named name h) eqn:Hh; cbn; [|by rewrite IH].
  unfold named in *. apply String.eqb_eq in Hh.
  destruct (String.eqb_spec (lower h.1) (lower name')); [congruence|done].
Qed.

Lemma get_list_setitem_same (name name' value : string) (headers : Headers) :
  lower name' = lower name →
  get_list name' (setitem name value headers) = [value].
Proof.
  intros Hn. induction headers as [|h rest IH]; cbn.
  - unfold named. cbn. rewrite Hn. by rewrite String.eqb_refl.
  - destruct (named name h) eqn:Hh; cbn.
    + rewrite Hn, String.eqb_refl. by rewrite get_list_without_same.
    + unfold named in *. rewrite Hn, Hh. exact IH.
Qed.

Lemma get_list_setitem_other (name name' value : string) (headers : Headers) :
  lower name' ≠ lower name →
  get_list name' (setitem name value headers) = get_list name' headers.
Proof.
  intros Hn. induction headers as [|h rest IH]; cbn.
  - unfold named. cbn.
    by destruct (String.eqb_spec (lower name) (lower name')).
  - destruct (named name h) eqn:Hh; cbn.
    + unfold named in *. cbn. apply String.eqb_eq in Hh.
      destruct (String.eqb_spec (lower name) (lower name')); [congruence|].
      destruct (String.eqb_spec (lower h.1) (lower name')); [congruence|].
      by apply get_list_without_other.
    + by rewrite IH.
Qed.

(** The auth flow sends one request and never a second one, whatever the
    server answers.  That request is the given one with its method and URL
    untouched; its Authorization header, under any spelling of the name, has
    exactly one value, the raw key (no scheme is put before it, and earlier
    Authorization lines are gone); every other header keeps its values. *)
Theorem auth_flow_sets_the_key (key : string) (request : Request)
    (send : Request → Response) :
  ∃ sent : Request,
    requests_sent send (auth_flow key request) = [sent] ∧
    request_method sent = request_method request ∧
    request_url sent = request_url request ∧
    (∀ name, lower name = "authorization" →
       get_list name (request_headers sent) = [key]) ∧
    (∀ name, lower name ≠ "authorization" →
       get_list name (request_headers sent)
       = get_list name (request_headers request)).
Proof.
  eexists. split; [reflexivity|]. cbn. repeat split.
  - intros name Hname. by apply get_list_setitem_same.
  - intros name Hname. by apply get_list_setitem_other.
Qed.

Example auth_flow_replaces_old_headers :
  requests_sent (λ _, {| status_code := 401; json := None |})
    (auth_flow "key"
       {| request_method := "GET"; request_url := "https://t212.test";
          request_headers := [ ("accept", "*/*"); ("authorization", "old");
                               ("AUTHORIZATION", "older") ] |})
  = [ {| request_method := "GET"; request_url := "https://t212.test";
         request_headers := [ ("accept", "*/*"); ("Authorization", "key") ] |} ].
Proof. reflexivity. Qed.

(** ** From a raw record to its point *)

Lemma with_loc_VOk_inv {A} (k : loc_item) (r : vresult A) (a : A) :
  with_loc k r = VOk a → r = VOk a.
Proof. by destruct r. Qed.

Lemma field_by_alias_VOk {A} (d : gmap string pyval) (name : string)
    (explicit : option string) (validator : pyval → vresult A) (v : pyval)
    (a : A) :
  d !! alias_of name explicit = Some v →
  field d name explicit validator = VOk a →
  validator v = VOk a.
Proof.
  intros Hd. rewrite (field_by_alias d name explicit validator v Hd).
  apply with_loc_VOk_inv.
Qed.

(** End to end, for a record that validates and gives its ticker as a str
    and its prices, quantity, profit and forex impact as floats (or null, for
    the impact) under their aliases: the point is tagged with the normalised
    ticker, its fields are those very floats, bit for bit, the impact is
    [None] when it was null, and [current_value] is the product of the raw
    current price and quantity. *)
Theorem record_to_point (L : LaxCoercions) (d : gmap string pyval)
    (p : Position) (s : string) (cp ap q pr : float) (fx : option float)
    (time : datetime) :
  validate_position L (PyDict d) = VOk p →
  d !! "ticker" = Some (PyStr s) →
  d !! "currentPrice" = Some (PyFloat cp) →
  d !! "averagePrice" = Some (PyFloat ap) →
  d !! "quantity" = Some (PyFloat q) →
  d !! "ppl" = Some (PyFloat pr) →
  d !! "fxPpl" = Some (of_opt_float fx) →
  point_tags (build_point p time)
  = {[ "ticker" := PyStr (normalised_ticker s) ]} ∧
  point_fields (build_point p time)
  = list_to_map
      [ ("current_price", PyFloat cp); ("average_price", PyFloat ap);
        ("quantity", PyFloat q); ("profit", PyFloat pr);
        ("forex_movement_impact", of_opt_float fx);
        ("current_value", PyFloat (cp * q)%float) ].
Proof.
  intros Hp Ht Hcp Hap Hq Hpr Hfx. unfold validate_position in Hp.
  vap_inv Hp.
  repeat match goal with
         | Hf : field d ?name ?ex ?val = VOk _ |- _ =>
             first
               [ apply (field_by_alias_VOk d name ex val _ _ Ht) in Hf
               | apply (field_by_alias_VOk d name ex val _ _ Hcp) in Hf
               | apply (field_by_alias_VOk d name ex val _ _ Hap) in Hf
               | apply (field_by_alias_VOk d name ex val _ _ Hq) in Hf
               | apply (field_by_alias_VOk d name ex val _ _ Hpr) in Hf
               | apply (field_by_alias_VOk d name ex val _ _ Hfx) in Hf
               | clear Hf ]
         end.
  repeat match goal with
         | Hf : float_field L (PyFloat _) = VOk _ |- _ =>
             cbn in Hf; inversion Hf; subst; clear Hf
         | Hf : ticker_field (PyStr _) = VOk _ |- _ =>
             rewrite ticker_field_str in Hf; inversion Hf; subst; clear Hf
         | Hf : nullable (float_field L) (of_opt_float ?o) = VOk _ |- _ =>
             destruct o; cbn in Hf; inversion Hf; subst; clear Hf
         end.
  all: split; [reflexivity|]; unfold build_point, current_value; cbn.
  all: vm_compute; reflexivity.
Qed.

Lemma record_to_point_witness :
  point_fields (build_point Fixtures.TEST1_position Fixtures.DEFAULT_TIME)
  = list_to_map
      [ ("current_price", PyFloat 56.73); ("average_price", PyFloat 52.8971885);
        ("quantity", PyFloat 0.168629); ("profit", PyFloat 0.99);
        ("forex_movement_impact", PyFloat 0.27);
        ("current_value", PyFloat (56.73 * 0.168629)%float) ].
Proof.
  apply (record_to_point Fixtures.lax Fixtures.TEST1 Fixtures.TEST1_position
           "TEST1_US_EQ" 56.73 52.8971885 0.168629 0.99 (Some 0.27%float)
           Fixtures.DEFAULT_TIME); vm_compute; reflexivity.
Defined.
